(** * StudyQuest server: progression ledger and spaced-repetition scheduler

    A shallow embedding of the request handlers of the edge function
    (the Hono application that serves [/make-server-21b13642/...]) and
    the properties of its XP ledger, streak counter and review scheduler.

    The handlers are JavaScript over untyped JSON documents, so the
    embedding keeps the documents untyped: a request body, a stored
    profile, task, goal or review schedule is a [JsVal].  The fragment
    of JavaScript that is modelled:

    - numbers are the integers ([Z]); the arithmetic the handlers do on
      them ([+], [Math.floor (_ / 15) * 10]) is exact on integers;
    - strings are sequences of 8-bit characters ([string]);
    - an operation that would need an implicit conversion between a
      number and a string or an object (["abc" + 50], [new Date ([1])])
      has no value in the model: the handler's outcome is [Unmodelled];
    - a thrown exception is an outcome of its own ([Thrown]) until the
      handler's [try ... catch] turns it into the 500 response;
    - the clock is read once per request: every [Date.now ()] and
      [new Date ()] of one request sees the same instant [now]. *)

From stdpp Require Import gmap strings list fin_maps pretty sorting.
From Stdlib Require Import ZArith Lia Ascii String.

#[local] Open Scope string_scope.
#[local] Open Scope Z_scope.

#[local] Set Warnings "-register-all".

(** ** JSON documents and the JavaScript operators the handlers use *)

Inductive JsVal : Type :=
| JUndefined
| JNull
| JBool (b : bool)
| JNum (z : Z)
| JStr (s : string)
| JArr (l : list JsVal)
| JObj (m : gmap string JsVal).

(** ToBoolean: [undefined], [null], [false], [0] and [""] are falsy. *)
Definition truthy (v : JsVal) : bool :=
  match v with
  | JUndefined | JNull => false
  | JBool b => b
  | JNum z => negb (z =? 0)
  | JStr s => match s with EmptyString => false | String _ _ => true end
  | JArr _ | JObj _ => true
  end.

(** [a || b] returns one of its operands; [!a] is a boolean. *)
Definition js_or (a b : JsVal) : JsVal := if truthy a then a else b.
Definition js_not (a : JsVal) : bool := negb (truthy a).

(** [a === b] on the values the handlers compare (user ids and calendar
    dates): primitives are equal when they are the same primitive; two
    documents read from the store or from a request are distinct
    objects, never [===]. *)
Definition strict_eq (a b : JsVal) : bool :=
  match a, b with
  | JUndefined, JUndefined => true
  | JNull, JNull => true
  | JBool x, JBool y => Bool.eqb x y
  | JNum x, JNum y => x =? y
  | JStr x, JStr y => String.eqb x y
  | _, _ => false
  end.

(** [o.p] for the property names of the handlers ([xp], [streak],
    [completed], [reviews], ...), none of which is inherited from a
    prototype: a TypeError ([None]) on [undefined] and [null], the own
    property of an object, [undefined] on everything else. *)
Definition get_prop (o : JsVal) (p : string) : option JsVal :=
  match o with
  | JUndefined | JNull => None
  | JObj m => Some (default JUndefined (m !! p))
  | _ => Some JUndefined
  end.

(** [o?.p]: [undefined] where [o.p] would throw. *)
Definition get_opt (o : JsVal) (p : string) : JsVal :=
  default JUndefined (get_prop o p).

(** The own enumerable properties that [{ ...v }] copies. *)
Definition spread (v : JsVal) : gmap string JsVal :=
  match v with
  | JObj m => m
  | JArr l => list_to_map (imap (fun i x => (pretty i, x)) l)
  | JStr s =>
      list_to_map
        (imap (fun i c => (pretty i, JStr (String c EmptyString)))
              (list_ascii_of_string s))
  | _ => ∅
  end.

(** Object literals are built left to right, a later property replacing
    an earlier one of the same name: [lit_spread v o] is [{ ...o, ...v }]
    and [lit_set k x o] is [{ ...o, k: x }]. *)
Definition lit_spread (v : JsVal) (o : gmap string JsVal) : gmap string JsVal :=
  spread v ∪ o.
Definition lit_set (k : string) (x : JsVal) (o : gmap string JsVal)
  : gmap string JsVal := <[k := x]> o.

(** What [JSON.stringify] keeps of a value: a property whose value is
    [undefined] is dropped, an [undefined] array element becomes [null]. *)
Fixpoint jsonify (v : JsVal) : JsVal :=
  match v with
  | JArr l =>
      JArr (map (fun x => match x with
                          | JUndefined => JNull
                          | _ => jsonify x
                          end) l)
  | JObj m =>
      JObj (omap (fun x => match x with
                           | JUndefined => None
                           | _ => Some (jsonify x)
                           end) m)
  | _ => v
  end.

(** ToNumber on the primitives whose number is an integer; [None] for
    [undefined] (NaN) and for strings, arrays and objects (outside the
    fragment). *)
Definition to_number (v : JsVal) : option Z :=
  match v with
  | JNum x => Some x
  | JBool b => Some (if b then 1 else 0)
  | JNull => Some 0
  | _ => None
  end.

(** [a + b] as numeric addition; [None] outside the integer fragment
    (a string or object operand makes [+] a concatenation). *)
Definition js_add (a b : JsVal) : option JsVal :=
  match to_number a, to_number b with
  | Some x, Some y => Some (JNum (x + y))
  | _, _ => None
  end.

(** [Math.floor (a / 15) * 10]; [Z.div] rounds down, as [Math.floor]. *)
Definition floor_div15_times10 (a : JsVal) : option JsVal :=
  match to_number a with
  | Some x => Some (JNum (x / 15 * 10))
  | None => None
  end.

(** JavaScript compares two strings code unit by code unit. *)
Definition str_le (a b : string) : bool := String.leb a b.

(** [r <= now] where [now] is the output of [toISOString]: two strings
    are compared as strings; any other primitive [r] is compared after
    ToNumber, and ToNumber of an ISO timestamp is NaN, so the test is
    false; an array or object [r] would be converted to a string first,
    which is outside the fragment. *)
Definition le_iso (r : JsVal) (now : string) : option bool :=
  match r with
  | JStr s => Some (str_le s now)
  | JArr _ | JObj _ => None
  | _ => Some false
  end.

(** SameValueZero, the equality of [Array.prototype.includes]. *)
Definition same_value_zero (a b : JsVal) : bool := strict_eq a b.

(** [s.split ('T')[0]]: the part of [s] before its first ['T']. *)
Fixpoint split_T0 (s : string) : string :=
  match s with
  | EmptyString => EmptyString
  | String c s' => if Ascii.eqb c "T"%char then EmptyString
                   else String c (split_T0 s')
  end.

(** [s.split (c)]: the parts of [s] between the occurrences of the
    character [c]; the split of the empty string is [[""]]. *)
Fixpoint split_on (c : ascii) (s : string) : list string :=
  match s with
  | EmptyString => [EmptyString]
  | String a s' =>
      if Ascii.eqb a c then EmptyString :: split_on c s'
      else match split_on c s' with
           | w :: ws => String a w :: ws
           | [] => [String a EmptyString]
           end
  end.

(** ** Time values and [Date.prototype.toISOString]

    A time value is a number of milliseconds since the epoch; the
    functions below are those of ECMA-262, section "Time Values and Time
    Range", on integers. *)

Definition msPerDay : Z := 86400000.
Definition maxTime : Z := 8640000000000000.

Definition Day (t : Z) : Z := t / msPerDay.

Definition DaysInYear (y : Z) : Z :=
  if negb (y mod 4 =? 0) then 365
  else if negb (y mod 100 =? 0) then 366
  else if negb (y mod 400 =? 0) then 365
  else 366.

Definition DayFromYear (y : Z) : Z :=
  365 * (y - 1970) + (y - 1969) / 4 - (y - 1901) / 100 + (y - 1601) / 400.

(** The year of a day number [d]: the largest [y] with
    [DayFromYear y <= d], found from the mean year length and one
    correction step ([YearFromDay_spec] shows it is that year). *)
Definition YearFromDay (d : Z) : Z :=
  let y := 1970 + d * 400 / 146097 in
  if d <? DayFromYear y then y - 1
  else if DayFromYear (y + 1) <=? d then y + 1
  else y.

Definition InLeapYear (d : Z) : Z :=
  if DaysInYear (YearFromDay d) =? 366 then 1 else 0.

Definition DayWithinYear (d : Z) : Z := d - DayFromYear (YearFromDay d).

(** Months are numbered from 0 (January). *)
Definition MonthFromDay (d : Z) : Z :=
  let n := DayWithinYear d in
  let l := InLeapYear d in
  if n <? 31 then 0
  else if n <? 59 + l then 1
  else if n <? 90 + l then 2
  else if n <? 120 + l then 3
  else if n <? 151 + l then 4
  else if n <? 181 + l then 5
  else if n <? 212 + l then 6
  else if n <? 243 + l then 7
  else if n <? 273 + l then 8
  else if n <? 304 + l then 9
  else if n <? 334 + l then 10
  else 11.

Definition DateFromDay (d : Z) : Z :=
  let n := DayWithinYear d in
  let l := InLeapYear d in
  match MonthFromDay d with
  | 0 => n + 1
  | 1 => n - 30
  | 2 => n - 58 - l
  | 3 => n - 89 - l
  | 4 => n - 119 - l
  | 5 => n - 150 - l
  | 6 => n - 180 - l
  | 7 => n - 211 - l
  | 8 => n - 242 - l
  | 9 => n - 272 - l
  | 10 => n - 303 - l
  | _ => n - 333 - l
  end.

(** The first day of month [m] within a year, [l] being 1 in a leap
    year. *)
Definition month_start (l m : Z) : Z :=
  match m with
  | 0 => 0
  | 1 => 31
  | 2 => 59 + l
  | 3 => 90 + l
  | 4 => 120 + l
  | 5 => 151 + l
  | 6 => 181 + l
  | 7 => 212 + l
  | 8 => 243 + l
  | 9 => 273 + l
  | 10 => 304 + l
  | _ => 334 + l
  end.

Definition HourFromTime (t : Z) : Z := (t / 3600000) mod 24.
Definition MinFromTime (t : Z) : Z := (t / 60000) mod 60.
Definition SecFromTime (t : Z) : Z := (t / 1000) mod 60.
Definition msFromTime (t : Z) : Z := t mod 1000.

(** The character of a decimal digit [d] (["0"] has code 48). *)
Definition digit_char (d : Z) : ascii := ascii_of_N (48 + Z.to_N d).

(** The last [w] decimal digits of [n], most significant first. *)
Fixpoint digits (w : nat) (n : Z) : string :=
  match w with
  | O => EmptyString
  | S w' => String (digit_char (n / 10 ^ Z.of_nat w' mod 10)) (digits w' n)
  end.

(** Years 0 to 9999 print as four digits, all others as a sign and six
    digits. *)
Definition year_string (y : Z) : string :=
  if (0 <=? y) && (y <=? 9999) then digits 4 y
  else String (if 0 <=? y then "+"%char else "-"%char) (digits 6 (Z.abs y)).

(** The calendar date [YYYY-MM-DD] of a day number. *)
Definition date_string (d : Z) : string :=
  year_string (YearFromDay d) +:+ "-" +:+ digits 2 (MonthFromDay d + 1)
    +:+ "-" +:+ digits 2 (DateFromDay d).

Definition time_string (t : Z) : string :=
  digits 2 (HourFromTime t) +:+ ":" +:+ digits 2 (MinFromTime t) +:+ ":"
    +:+ digits 2 (SecFromTime t) +:+ "." +:+ digits 3 (msFromTime t) +:+ "Z".

(** [toISOString] of a valid time value. *)
Definition iso_string (t : Z) : string :=
  date_string (Day t) +:+ "T" +:+ time_string t.

(** The fields that [toISOString] prints, in the order it prints them,
    and the width and the separator that follows each field of a
    timestamp with a year of four digits. *)
Definition iso_fields (t : Z) : list Z :=
  [ YearFromDay (Day t); MonthFromDay (Day t) + 1; DateFromDay (Day t);
    HourFromTime t; MinFromTime t; SecFromTime t; msFromTime t ].

Definition iso_layout : list (nat * ascii) :=
  [ (4%nat, "-"); (2%nat, "-"); (2%nat, "T"); (2%nat, ":"); (2%nat, ":");
    (2%nat, "."); (3%nat, "Z") ]%char.

Fixpoint print_fields (layout : list (nat * ascii)) (fs : list Z) : string :=
  match layout, fs with
  | (w, c) :: layout', f :: fs' =>
      digits w f +:+ String c (print_fields layout' fs')
  | _, _ => EmptyString
  end.

(** Every field fits its width. *)
Fixpoint fields_fit (layout : list (nat * ascii)) (fs : list Z) : Prop :=
  match layout, fs with
  | (w, _) :: layout', f :: fs' =>
      0 <= f < 10 ^ Z.of_nat w /\ fields_fit layout' fs'
  | [], [] => True
  | _, _ => False
  end.

(** The lexicographic order of two lists of fields. *)
Fixpoint lex_lt (a b : list Z) : Prop :=
  match a, b with
  | x :: a', y :: b' => x < y \/ (x = y /\ lex_lt a' b')
  | _, _ => False
  end.

(** The time values of the years 0000 to 9999, the ones that
    [toISOString] prints with a year of four digits. *)
Definition four_digit_year (t : Z) : Prop :=
  -62167219200000 <= t <= 253402300799999.

(** A [Date] object holds a time value or NaN ([None], an Invalid
    Date). *)
Definition Date : Type := option Z.

(** TimeClip: a time value beyond 8.64e15 ms from the epoch is NaN. *)
Definition TimeClip (t : Z) : Date :=
  if Z.abs t <=? maxTime then Some t else None.

(** [d.toISOString ()]: a RangeError ([None]) on an Invalid Date. *)
Definition toISOString (d : Date) : option string :=
  match d with
  | Some t => Some (iso_string t)
  | None => None
  end.

(** [new Date (d.getTime () + n)]: NaN stays NaN. *)
Definition Date_plus (d : Date) (n : Z) : Date :=
  match d with
  | Some t => TimeClip (t + n)
  | None => None
  end.

(** [new Date (v)] for one argument: a string is parsed, any other
    primitive is converted to a number, and the time value is clipped.
    The outer [None] is an array or object argument (outside the
    fragment).  [Date.parse] is the engine's: besides the format of
    [toISOString] it accepts formats of its own choosing, so the
    handlers take it as a parameter [parse], which returns the time
    value of a string, [None] when it is not a date. *)
Definition Date_new (parse : string -> option Z) (v : JsVal) : option Date :=
  match v with
  | JStr s => Some (t ← parse s; TimeClip t)
  | JUndefined => Some None
  | JArr _ | JObj _ => None
  | _ => Some (t ← to_number v; TimeClip t)
  end.

(** A parser for the format that [toISOString] prints,
    [YYYY-MM-DDTHH:mm:ss.sssZ] with a year of four digits or of a sign
    and six digits.  Every engine's [Date.parse] reads this format this
    way; it stands for [parse] where a statement needs a parser. *)
Definition digit_val (c : ascii) : option Z :=
  let n := N_of_ascii c in
  if ((48 <=? n) && (n <=? 57))%N then Some (Z.of_N n - 48) else None.

Fixpoint read_digits (w : nat) (acc : Z) (s : string) : option (Z * string) :=
  match w with
  | O => Some (acc, s)
  | S w' =>
      match s with
      | String c s' => d ← digit_val c; read_digits w' (10 * acc + d) s'
      | EmptyString => None
      end
  end.

Definition expect (c : ascii) (s : string) : option string :=
  match s with
  | String c' s' => if Ascii.eqb c c' then Some s' else None
  | EmptyString => None
  end.

Definition read_year (s : string) : option (Z * string) :=
  match s with
  | String c s' =>
      if Ascii.eqb c "+" then read_digits 6 0 s'
      else if Ascii.eqb c "-" then
        '(y, r) ← read_digits 6 0 s';
        if y =? 0 then None else Some (- y, r)
      else read_digits 4 0 s
  | EmptyString => None
  end.

(** The day number of a date; months are numbered from 0. *)
Definition MakeDay (y m d : Z) : Z :=
  DayFromYear y + month_start (if DaysInYear y =? 366 then 1 else 0) m + d - 1.

Definition DaysInMonth (y m : Z) : Z :=
  let l := if DaysInYear y =? 366 then 1 else 0 in
  if m =? 11 then 31 else month_start l (m + 1) - month_start l m.

Definition parse_iso (s : string) : option Z :=
  '(y, s) ← read_year s;
  s ← expect "-" s;
  '(mo, s) ← read_digits 2 0 s;
  s ← expect "-" s;
  '(d, s) ← read_digits 2 0 s;
  s ← expect "T" s;
  '(h, s) ← read_digits 2 0 s;
  s ← expect ":" s;
  '(mi, s) ← read_digits 2 0 s;
  s ← expect ":" s;
  '(sec, s) ← read_digits 2 0 s;
  s ← expect "." s;
  '(ms, s) ← read_digits 3 0 s;
  s ← expect "Z" s;
  match s with
  | EmptyString =>
      if (1 <=? mo) && (mo <=? 12) && (1 <=? d) && (d <=? DaysInMonth y (mo - 1))
         && (h <=? 23) && (mi <=? 59) && (sec <=? 59)
      then Some (MakeDay y (mo - 1) d * msPerDay
                 + h * 3600000 + mi * 60000 + sec * 1000 + ms)
      else None
  | String _ _ => None
  end.

(** ** Evaluation of expressions

    An expression has a value, throws, or leaves the fragment. *)

Inductive Eval (A : Type) : Type :=
| Val (a : A)
| Exn
| Beyond.
Arguments Val {A} a.
Arguments Exn {A}.
Arguments Beyond {A}.

(** A TypeError or RangeError where the JavaScript operation has no
    result. *)
Definition or_throw {A} (o : option A) : Eval A :=
  match o with Some a => Val a | None => Exn end.

(** Outside the fragment where the model's operation has no result. *)
Definition or_beyond {A} (o : option A) : Eval A :=
  match o with Some a => Val a | None => Beyond end.

Definition ebind {A B} (e : Eval A) (k : A -> Eval B) : Eval B :=
  match e with
  | Val a => k a
  | Exn => Exn
  | Beyond => Beyond
  end.

(** [s.includes (r)] of a string [s]: whether [r] occurs in it. *)
Fixpoint str_includes (s r : string) : bool :=
  String.prefix r s ||
  match s with
  | EmptyString => false
  | String _ s' => str_includes s' r
  end.

(** [c.includes (r)]: SameValueZero membership in an array, substring
    test in a string (of a string [r]; another [r] would be converted),
    a TypeError on any other [c], which has no [includes] method. *)
Definition js_includes (c r : JsVal) : Eval bool :=
  match c with
  | JArr l => Val (existsb (same_value_zero r) l)
  | JStr s => match r with
              | JStr r' => Val (str_includes s r')
              | _ => Beyond
              end
  | _ => Exn
  end.

(** [l.find (cb)] of an array [l]: the first element on which the
    callback is true, [undefined] when there is none; the callback is
    not called on the elements after it. *)
Fixpoint js_find (cb : JsVal -> Eval bool) (l : list JsVal) : Eval JsVal :=
  match l with
  | [] => Val JUndefined
  | r :: l' => ebind (cb r) (fun b => if b then Val r else js_find cb l')
  end.

(** [l.map (f)], left to right. *)
Fixpoint js_map {A B} (f : A -> Eval B) (l : list A) : Eval (list B) :=
  match l with
  | [] => Val []
  | x :: l' => ebind (f x) (fun y => ebind (js_map f l') (fun ys => Val (y :: ys)))
  end.

(** The callback of [reviews-due]:
    [r => !review.completedReviews.includes (r) && r <= now]. *)
Definition due_callback (review : JsVal) (now : string) (r : JsVal) : Eval bool :=
  ebind (or_throw (get_prop review "completedReviews")) (fun c =>
  ebind (js_includes c r) (fun inc =>
  if negb inc then or_beyond (le_iso r now) else Val false)).

(** [review.reviews.find (...)]: a TypeError unless [reviews] is an
    array. *)
Definition next_due (now : string) (review : JsVal) : Eval JsVal :=
  ebind (or_throw (get_prop review "reviews")) (fun rs =>
  match rs with
  | JArr l => js_find (due_callback review now) l
  | _ => Exn
  end).

(** One step of the [map] of [reviews-due]:
    [nextDue ? { ...review, nextDue } : null]. *)
Definition annotate_due (now : string) (review : JsVal) : Eval JsVal :=
  ebind (next_due now review) (fun nextDue =>
  Val (if truthy nextDue
       then JObj (lit_set "nextDue" nextDue (lit_spread review ∅))
       else JNull)).

(** The due-review selection: [allReviews.map (...).filter (Boolean)]. *)
Definition selectDueReviews (allReviews : list JsVal) (now : string)
  : Eval (list JsVal) :=
  ebind (js_map (annotate_due now) allReviews) (fun l =>
  Val (filter (fun v => truthy v = true) l)).

(** The five review instants of a schedule:
    [new Date (studyDate.getTime () + k * 86400000).toISOString ()] for
    [k] = 1, 3, 7, 14, 30; a RangeError when one is not a valid time. *)
Definition review_offsets : list Z := [1; 3; 7; 14; 30].

Definition generateReviewSchedule (studyDate : Date) : Eval (list JsVal) :=
  js_map (fun k => ebind (or_throw (toISOString (Date_plus studyDate (k * 86400000))))
                         (fun s => Val (JStr s)))
         review_offsets.

(** The streak after a study session at [now]. *)
Definition next_streak (profile : JsVal) (now : Z) : Eval JsVal :=
  ebind (or_throw (toISOString (TimeClip now))) (fun nowIso =>
  let today := JStr (split_T0 nowIso) in
  ebind (match get_opt profile "lastStudyDate" with
         | JUndefined | JNull => Val JUndefined
         | JStr s => Val (JStr (split_T0 s))
         | _ => Exn
         end) (fun lastStudyDate =>
  let newStreak := js_or (get_opt profile "streak") (JNum 0) in
  if strict_eq lastStudyDate today then Val newStreak
  else
    ebind (or_throw (toISOString (TimeClip (now - 86400000)))) (fun yIso =>
    if strict_eq lastStudyDate (JStr (split_T0 yIso))
    then or_beyond (js_add newStreak (JNum 1))
    else Val (JNum 1)))).

(** [(profile?.xp || 0) + delta]. *)
Definition credit_xp (profile : JsVal) (delta : JsVal) : Eval JsVal :=
  or_beyond (js_add (js_or (get_opt profile "xp") (JNum 0)) delta).

(** ** The key-value store *)

(** Modelled from the spec: the module [kv_store.tsx] that the handlers
    import is not part of the sources.  The specification describes it
    as an opaque mapping from string key to JSON value with get, set,
    delete and "get all values whose key starts with a given prefix";
    a value is stored as JSON, and a key that was never set reads as
    [undefined]. *)
Definition kv_get (k : string) (s : gmap string JsVal) : JsVal :=
  default JUndefined (s !! k).

(** Modelled from the spec: [kv.set], see [kv_get]. *)
Definition kv_set (k : string) (v : JsVal) (s : gmap string JsVal)
  : gmap string JsVal := <[k := jsonify v]> s.

(** Modelled from the spec: [kv.getByPrefix], see [kv_get]; the order of
    the result is the store's. *)
Definition kv_getByPrefix (p : string) (s : gmap string JsVal) : list JsVal :=
  omap (fun kv => if String.prefix p kv.1 then Some kv.2 else None)
       (map_to_list s).

(** Modelled from the spec: [kv.del], see [kv_get]. *)
Definition kv_del (k : string) (s : gmap string JsVal) : gmap string JsVal :=
  delete k s.

(** ** Request handlers

    A handler runs against the store; a write made before an exception
    stays in the store. *)

Inductive Outcome (A : Type) : Type :=
| Done (a : A) (s : gmap string JsVal)
| Thrown (s : gmap string JsVal)
| Unmodelled.
Arguments Done {A} a s.
Arguments Thrown {A} s.
Arguments Unmodelled {A}.

Definition Handler (A : Type) : Type := gmap string JsVal -> Outcome A.

Definition ret {A} (a : A) : Handler A := fun s => Done a s.

Definition bind {A B} (c : Handler A) (k : A -> Handler B) : Handler B :=
  fun s => match c s with
           | Done a s' => k a s'
           | Thrown s' => Thrown s'
           | Unmodelled => Unmodelled
           end.

Notation "x <- c1 ;; c2" := (bind c1 (fun x => c2))
  (at level 100, c1 at next level, right associativity).
Notation "c1 ;;; c2" := (bind c1 (fun _ => c2))
  (at level 100, right associativity).

Definition eval {A} (e : Eval A) : Handler A :=
  fun s => match e with
           | Val a => Done a s
           | Exn => Thrown s
           | Beyond => Unmodelled
           end.

Definition get (k : string) : Handler JsVal := fun s => Done (kv_get k s) s.
Definition set (k : string) (v : JsVal) : Handler unit :=
  fun s => Done tt (kv_set k v s).
Definition getByPrefix (p : string) : Handler (list JsVal) :=
  fun s => Done (kv_getByPrefix p s) s.
Definition del (k : string) : Handler unit := fun s => Done tt (kv_del k s).

Record Response : Type := { status : Z; body : JsVal }.

(** [c.json (v, status)]. *)
Definition json (v : gmap string JsVal) (st : Z) : Response :=
  {| status := st; body := jsonify (JObj v) |}.

Definition error_body (msg : string) : gmap string JsVal :=
  {[ "error" := JStr msg ]}.

Definition success : gmap string JsVal := {[ "success" := JBool true ]}.

(** [try { ... } catch (error) { return c.json ({ error: msg }, 500) }]. *)
Definition try_catch (c : Handler Response) (msg : string) : Handler Response :=
  fun s => match c s with
           | Thrown s' => Done (json (error_body msg) 500) s'
           | o => o
           end.

(** The result of [verifyAuth]: the user id of the token, or an error
    message. *)
Inductive Auth : Type :=
| AuthOk (userId : string)
| AuthError (error : string).

(** The first two lines of every handler:
    [if (error) return c.json ({ error }, 401)]. *)
Definition authenticated (a : Auth) (h : string -> Handler Response)
  : Handler Response :=
  match a with
  | AuthError e => ret (json (error_body e) 401)
  | AuthOk userId => h userId
  end.

(** [verifyAuth]: the access token is the second of the parts of the
    [Authorization] header that single spaces separate.
    [supabase.auth.getUser] is the service's: [getUser] gives the
    [user] and the [error] of its answer to a token.  The result is
    [None] when the [id] of the user is not a string (outside the
    fragment). *)
Definition verifyAuth (getUser : string -> JsVal * JsVal)
    (authorization : option string) : option Auth :=
  match authorization with
  | None => Some (AuthError "No token provided")
  | Some header =>
      match split_on " " header !! 1%nat with
      | None | Some EmptyString => Some (AuthError "No token provided")
      | Some accessToken =>
          let (user, error) := getUser accessToken in
          if truthy error || js_not (get_opt user "id")
          then Some (AuthError "Unauthorized")
          else match get_opt user "id" with
               | JStr id => Some (AuthOk id)
               | _ => None
               end
      end
  end.

(** [new Date ().toISOString ()]. *)
Definition now_iso (now : Z) : Handler JsVal :=
  eval (ebind (or_throw (toISOString (TimeClip now))) (fun s => Val (JStr s))).

(** The profile signup stores for a new account. *)
Definition new_profile (name email : JsVal) (createdAt : JsVal)
  : gmap string JsVal :=
  lit_set "onboardingComplete" (JBool false)
  (lit_set "achievements" (JArr [])
  (lit_set "lastStudyDate" JNull
  (lit_set "streak" (JNum 0)
  (lit_set "level" (JNum 1)
  (lit_set "xp" (JNum 0)
  (lit_set "createdAt" createdAt
  (lit_set "email" email
  (lit_set "name" name ∅)))))))).

(** The key of the profile of a user: [`user_profile:${userId}`]. *)
Definition profile_key (userId : string) : string := "user_profile:" +:+ userId.

(** [POST /profile]. *)
Definition profile_post (a : Auth) (updates : JsVal) : Handler Response :=
  authenticated a (fun userId =>
  try_catch (
    currentProfile <- get (profile_key userId) ;;
    let updatedProfile :=
      JObj (lit_spread updates (lit_spread currentProfile ∅)) in
    set (profile_key userId) updatedProfile ;;;
    ret (json (lit_set "profile" updatedProfile success) 200))
  "Failed to update profile").

(** [POST /routine]. *)
Definition routine_post (a : Auth) (now : Z) (routineData : JsVal)
  : Handler Response :=
  authenticated a (fun userId =>
  try_catch (
    createdAt <- now_iso now ;;
    updatedAt <- now_iso now ;;
    set ("user_routine:" +:+ userId)
        (JObj (lit_set "updatedAt" updatedAt
              (lit_set "createdAt" createdAt
              (lit_spread routineData ∅)))) ;;;
    profile <- get (profile_key userId) ;;
    xp <- eval (credit_xp profile (JNum 50)) ;;
    set (profile_key userId)
        (JObj (lit_set "xp" xp
              (lit_set "onboardingComplete" (JBool true)
              (lit_spread profile ∅)))) ;;;
    ret (json success 200))
  "Failed to save routine").

(** [POST /study-record]. *)
Definition study_record_post (a : Auth) (now : Z) (recordData : JsVal)
  : Handler Response :=
  authenticated a (fun userId =>
  try_catch (
    let recordId := userId +:+ ":" +:+ pretty now in
    createdAt <- now_iso now ;;
    set ("study_record:" +:+ recordId)
        (JObj (lit_set "createdAt" createdAt
              (lit_spread recordData
              (lit_set "userId" (JStr userId) ∅)))) ;;;
    profile <- get (profile_key userId) ;;
    newStreak <- eval (next_streak profile now) ;;
    duration <- eval (or_throw (get_prop recordData "duration")) ;;
    xpGained <- eval (or_beyond (floor_div15_times10 (js_or duration (JNum 0)))) ;;
    xp <- eval (credit_xp profile xpGained) ;;
    lastStudyDate <- now_iso now ;;
    set (profile_key userId)
        (JObj (lit_set "lastStudyDate" lastStudyDate
              (lit_set "streak" newStreak
              (lit_set "xp" xp
              (lit_spread profile ∅))))) ;;;
    ret (json (lit_set "streak" newStreak
              (lit_set "xpGained" xpGained
              (lit_set "recordId" (JStr recordId) success))) 200))
  "Failed to save study record").

(** The key of a goal or task: [`goal:${goalId}`], [`task:${taskId}`]. *)
Definition record_key (kind id : string) : string := kind +:+ ":" +:+ id.

(** [PUT /goal/:id] and [PUT /task/:id] are the same code up to the key
    prefix, the award and the messages of the 404 and 500 responses;
    [record_put] is that code.  The XP is awarded when the update
    completes a record that was not completed:
    [updates.completed && !record.completed]. *)
Definition record_put (kind : string) (award : Z) (notFound failed : string)
    (a : Auth) (id : string) (updates : JsVal) : Handler Response :=
  authenticated a (fun userId =>
  try_catch (
    record <- get (record_key kind id) ;;
    if js_not record || negb (strict_eq (get_opt record "userId") (JStr userId))
    then ret (json (error_body notFound) 404)
    else
      let updated := JObj (lit_spread updates (lit_spread record ∅)) in
      set (record_key kind id) updated ;;;
      completed <- eval (or_throw (get_prop updates "completed")) ;;
      (if truthy completed && js_not (get_opt record "completed")
       then
         profile <- get (profile_key userId) ;;
         xp <- eval (credit_xp profile (JNum award)) ;;
         set (profile_key userId)
             (JObj (lit_set "xp" xp (lit_spread profile ∅)))
       else ret tt) ;;;
      ret (json (lit_set kind updated success) 200))
  failed).

Definition goal_put : Auth -> string -> JsVal -> Handler Response :=
  record_put "goal" 100 "Goal not found" "Failed to update goal".

Definition task_put : Auth -> string -> JsVal -> Handler Response :=
  record_put "task" 20 "Task not found" "Failed to update task".

(** [POST /review-schedule]. *)
Definition review_schedule_post (parse : string -> option Z)
    (a : Auth) (now : Z) (request : JsVal) : Handler Response :=
  authenticated a (fun userId =>
  try_catch (
    topic <- eval (or_throw (get_prop request "topic")) ;;
    studiedAt <- eval (or_throw (get_prop request "studiedAt")) ;;
    let scheduleId := userId +:+ ":" +:+ pretty now in
    studyDate <- eval (or_beyond (Date_new parse (js_or studiedAt (JNum now)))) ;;
    reviews <- eval (generateReviewSchedule studyDate) ;;
    studiedIso <- eval (or_throw (toISOString studyDate)) ;;
    createdAt <- now_iso now ;;
    set ("review:" +:+ scheduleId)
        (JObj (lit_set "createdAt" createdAt
              (lit_set "completedReviews" (JArr [])
              (lit_set "reviews" (JArr reviews)
              (lit_set "studiedAt" (JStr studiedIso)
              (lit_set "topic" topic
              (lit_set "userId" (JStr userId) ∅))))))) ;;;
    ret (json (lit_set "reviews" (JArr reviews)
              (lit_set "scheduleId" (JStr scheduleId) success)) 200))
  "Failed to create review schedule").

(** [GET /reviews-due]. *)
Definition reviews_due_get (a : Auth) (now : Z) : Handler Response :=
  authenticated a (fun userId =>
  try_catch (
    allReviews <- getByPrefix ("review:" +:+ userId +:+ ":") ;;
    nowIso <- eval (or_throw (toISOString (TimeClip now))) ;;
    dueReviews <- eval (selectDueReviews allReviews nowIso) ;;
    ret (json {[ "reviews" := JArr dueReviews ]} 200))
  "Failed to fetch due reviews").

(** [review.completedReviews.push (reviewDate)]: the review with the
    date appended; a TypeError unless [completedReviews] is an array. *)
Definition push_completed (review reviewDate : JsVal) : Eval JsVal :=
  match review with
  | JObj m =>
      match m !! "completedReviews" with
      | Some (JArr c) =>
          Val (JObj (<["completedReviews" := JArr (c ++ [reviewDate])]> m))
      | _ => Exn
      end
  | _ => Exn
  end.

(** [POST /review-complete/:id]. *)
Definition review_complete_post (a : Auth) (reviewId : string)
    (request : JsVal) : Handler Response :=
  authenticated a (fun userId =>
  try_catch (
    reviewDate <- eval (or_throw (get_prop request "reviewDate")) ;;
    review <- get ("review:" +:+ reviewId) ;;
    if js_not review || negb (strict_eq (get_opt review "userId") (JStr userId))
    then ret (json (error_body "Review not found") 404)
    else
      review' <- eval (push_completed review reviewDate) ;;
      set ("review:" +:+ reviewId) review' ;;;
      profile <- get (profile_key userId) ;;
      xp <- eval (credit_xp profile (JNum 15)) ;;
      set (profile_key userId)
          (JObj (lit_set "xp" xp (lit_spread profile ∅))) ;;;
      ret (json success 200))
  "Failed to complete review").

(** [POST /signup].  [supabase.auth.admin.createUser] is the service's:
    [created] is the [data] and the [error] of its answer.  The key of
    the profile is [`user_profile:${data.user.id}`], for an [id] that is
    a string (another one is outside the fragment). *)
Definition signup_post (created : JsVal * JsVal) (now : Z) (request : JsVal)
  : Handler Response :=
  try_catch (
    email <- eval (or_throw (get_prop request "email")) ;;
    password <- eval (or_throw (get_prop request "password")) ;;
    name <- eval (or_throw (get_prop request "name")) ;;
    if js_not email || js_not password || js_not name
    then ret (json (error_body "Missing required fields") 400)
    else
      let (data, error) := created in
      if truthy error
      then
        message <- eval (or_throw (get_prop error "message")) ;;
        ret (json {[ "error" := message ]} 400)
      else
        user <- eval (or_throw (get_prop data "user")) ;;
        id <- eval (or_throw (get_prop user "id")) ;;
        match id with
        | JStr userId =>
            createdAt <- now_iso now ;;
            set (profile_key userId)
                (JObj (new_profile name email createdAt)) ;;;
            ret (json (lit_set "user" user success) 200)
        | _ => eval Beyond
        end)
  "Internal server error during signup".

(** [GET /profile]. *)
Definition profile_get (a : Auth) : Handler Response :=
  authenticated a (fun userId =>
  try_catch (
    profile <- get (profile_key userId) ;;
    if js_not profile
    then ret (json (error_body "Profile not found") 404)
    else ret (json {[ "profile" := profile ]} 200))
  "Failed to fetch profile").

(** [GET /routine]. *)
Definition routine_get (a : Auth) : Handler Response :=
  authenticated a (fun userId =>
  try_catch (
    routine <- get ("user_routine:" +:+ userId) ;;
    ret (json {[ "routine" := routine ]} 200))
  "Failed to fetch routine").

(** [new Date (r.createdAt).getTime ()]: the time value of the
    [createdAt] of a record, [None] for NaN. *)
Definition created_time (parse : string -> option Z) (r : JsVal) : Eval Date :=
  ebind (or_throw (get_prop r "createdAt")) (fun c =>
  or_beyond (Date_new parse c)).

(** Where [x] goes in a list that is sorted by descending time: behind
    the elements with a later time, before those with the same time. *)
Fixpoint insert_desc (x : JsVal * Z) (l : list (JsVal * Z))
  : list (JsVal * Z) :=
  match l with
  | [] => [x]
  | y :: l' => if x.2 <? y.2 then y :: insert_desc x l' else x :: l
  end.

(** [records.sort ((a, b) => time (b) - time (a))].  The comparator is
    not called on an array of fewer than two elements.  On a longer one
    it is called on every element, so that an exception of [time] ends
    the sort; when every time is a number the comparator is consistent
    and the sort, which is stable, puts the later times first and keeps
    the order of equal times; with a NaN among the times the order is
    the engine's choice (outside the fragment). *)
Definition sort_newest_first (time : JsVal -> Eval Date) (records : list JsVal)
  : Eval (list JsVal) :=
  match records with
  | [] | [_] => Val records
  | _ =>
      ebind (js_map (fun r => ebind (time r) (fun t =>
                       match t with
                       | Some z => Val (r, z)
                       | None => Beyond
                       end)) records) (fun l =>
      Val ((foldr insert_desc [] l).*1))
  end.

(** [GET /study-records]. *)
Definition study_records_get (parse : string -> option Z) (a : Auth)
  : Handler Response :=
  authenticated a (fun userId =>
  try_catch (
    records <- getByPrefix ("study_record:" +:+ userId +:+ ":") ;;
    sortedRecords <- eval (sort_newest_first (created_time parse) records) ;;
    ret (json {[ "records" := JArr sortedRecords ]} 200))
  "Failed to fetch study records").

(** [POST /goal]: [progress], [completed] and [createdAt] come after the
    spread of the request, [userId] before it. *)
Definition goal_post (a : Auth) (now : Z) (goalData : JsVal)
  : Handler Response :=
  authenticated a (fun userId =>
  try_catch (
    let goalId := userId +:+ ":" +:+ pretty now in
    createdAt <- now_iso now ;;
    set (record_key "goal" goalId)
        (JObj (lit_set "createdAt" createdAt
              (lit_set "completed" (JBool false)
              (lit_set "progress" (JNum 0)
              (lit_spread goalData
              (lit_set "userId" (JStr userId) ∅)))))) ;;;
    ret (json (lit_set "goalId" (JStr goalId) success) 200))
  "Failed to create goal").

(** [POST /task]. *)
Definition task_post (a : Auth) (now : Z) (taskData : JsVal)
  : Handler Response :=
  authenticated a (fun userId =>
  try_catch (
    let taskId := userId +:+ ":" +:+ pretty now in
    createdAt <- now_iso now ;;
    set (record_key "task" taskId)
        (JObj (lit_set "createdAt" createdAt
              (lit_set "completed" (JBool false)
              (lit_spread taskData
              (lit_set "userId" (JStr userId) ∅))))) ;;;
    ret (json (lit_set "taskId" (JStr taskId) success) 200))
  "Failed to create task").

(** [GET /goals], [GET /tasks] and [GET /documents] are the same code up
    to the key prefix, the name of the list in the response and the
    message of the 500 response; [list_get] is that code. *)
Definition list_get (kind field failed : string) (a : Auth)
  : Handler Response :=
  authenticated a (fun userId =>
  try_catch (
    records <- getByPrefix (kind +:+ ":" +:+ userId +:+ ":") ;;
    ret (json {[ field := JArr records ]} 200))
  failed).

Definition goals_get : Auth -> Handler Response :=
  list_get "goal" "goals" "Failed to fetch goals".

Definition tasks_get : Auth -> Handler Response :=
  list_get "task" "tasks" "Failed to fetch tasks".

Definition documents_get : Auth -> Handler Response :=
  list_get "document" "documents" "Failed to fetch documents".

(** [DELETE /task/:id]. *)
Definition task_delete (a : Auth) (id : string) : Handler Response :=
  authenticated a (fun userId =>
  try_catch (
    task <- get (record_key "task" id) ;;
    if js_not task || negb (strict_eq (get_opt task "userId") (JStr userId))
    then ret (json (error_body "Task not found") 404)
    else
      del (record_key "task" id) ;;;
      ret (json success 200))
  "Failed to delete task").

(** ** The callers in the components *)

(** [Dashboard.tsx]: the level shown for a profile,
    [Math.floor (profile.xp / 1000) + 1], and the XP at which the next
    level starts, [level * 1000]. *)
Definition level (xp : Z) : Z := xp / 1000 + 1.
Definition xpForNextLevel (xp : Z) : Z := level xp * 1000.

(** [StudyRecordsImproved.tsx], [createReviewSchedule]: the request is
    [{ topic, studiedAt: new Date ().toISOString () }], with the clock of
    the browser. *)
Definition createReviewSchedule_request (topic : string) (clock : Z)
  : Eval JsVal :=
  ebind (or_throw (toISOString (TimeClip clock))) (fun studiedAt =>
  Val (JObj {[ "topic" := JStr topic; "studiedAt" := JStr studiedAt ]})).

(** ** Vocabulary of the statements *)

(** A valid time value: at most 8.64e15 ms from the epoch. *)
Definition valid_time (t : Z) : Prop := Z.abs t <= maxTime.

(** The days of the valid time values. *)
Definition valid_day (d : Z) : Prop := -100000000 <= d <= 100000000.

(** The reviews of a schedule studied at [T], as the statements give
    them: [T] plus 1, 3, 7, 14 and 30 days in milliseconds. *)
Definition reviews_at (T : Z) : list JsVal :=
  [ JStr (iso_string (T + 86400000));
    JStr (iso_string (T + 259200000));
    JStr (iso_string (T + 604800000));
    JStr (iso_string (T + 1209600000));
    JStr (iso_string (T + 2592000000)) ].

(** The [xp] of the stored profile of a user. *)
Definition stored_xp (userId : string) (s : gmap string JsVal) : JsVal :=
  get_opt (kv_get (profile_key userId) s) "xp".

(** A JSON document is a value that [JSON.stringify] keeps as it is:
    what a request carries and what the store returns. *)
Definition is_json (v : JsVal) : Prop := v <> JUndefined /\ jsonify v = v.

(** What it means that the timestamp [T] is passed as [studiedAt]: as
    a string that parses to [T], or as the number [T] of milliseconds
    (0 is the one number that [studiedAt || Date.now ()] does not let
    through). *)
Inductive studied_at (parse : string -> option Z) (T : Z) : JsVal -> Prop :=
| studied_at_string str :
    str <> "" -> parse str = Some T -> studied_at parse T (JStr str)
| studied_at_number : T <> 0 -> studied_at parse T (JNum T).

(** A stored review schedule: its review timestamps [rs] and the list
    [c] of its completed reviews. *)
Definition schedule_doc (m : gmap string JsVal) (rs : list string)
    (c : list JsVal) : Prop :=
  m !! "reviews" = Some (JArr (JStr <$> rs))
  /\ m !! "completedReviews" = Some (JArr c).

(** The schedules of the statements: the timestamps are strings that
    are not empty, in ascending order (as JavaScript orders strings). *)
Definition ascending_schedule (v : JsVal) : Prop :=
  exists m rs c,
    v = JObj m /\ schedule_doc m rs c
    /\ Forall (fun r => r <> "") rs
    /\ StronglySorted (fun a b => str_le a b = true) rs.

(** A review timestamp is due at [now]: it is not among the completed
    reviews and it is [<= now]. *)
Definition due (c : list JsVal) (now r : string) : Prop :=
  (JStr r ∉ c) /\ str_le r now = true.

(** The same as a test, the callback of the handler. *)
Definition due_b (c : list JsVal) (now r : string) : bool :=
  negb (existsb (same_value_zero (JStr r)) c) && str_le r now.

(** The earliest due review of a schedule. *)
Definition earliest_due (rs : list string) (c : list JsVal) (now r : string)
  : Prop :=
  r ∈ rs /\ due c now r
  /\ forall r', r' ∈ rs -> due c now r' -> str_le r r' = true.

(** What the selection makes of one schedule: the schedule with the
    first due review as its [nextDue], or [null]. *)
Definition selected (now : string) (v a : JsVal) : Prop :=
  exists m rs c,
    v = JObj m /\ schedule_doc m rs c
    /\ a = match List.find (due_b c now) rs with
           | Some r => JObj (<["nextDue" := JStr r]> m)
           | None => JNull
           end.

(** The store after two requests in a row. *)
Definition then_run {A B} (c1 : Handler A) (c2 : Handler B) : Handler B :=
  bind c1 (fun _ => c2).

(** The calendar day of a stored [lastStudyDate]: none for [null], the
    day [D] for a string whose part before ['T'] is the printed date of
    [D] (the handlers store the [toISOString] of an instant of day [D]). *)
Inductive last_study_day (v : JsVal) : option Z -> Prop :=
| last_study_none : v = JNull \/ v = JUndefined -> last_study_day v None
| last_study_on s D :
    v = JStr s -> split_T0 s = date_string D -> valid_day D ->
    last_study_day v (Some D).

(** The streak after a session on day [today], for a profile with
    streak [k] whose last session was on day [last]. *)
Definition streak_after (last : option Z) (today k : Z) : Z :=
  match last with
  | Some D => if today =? D then k else if today =? D + 1 then k + 1 else 1
  | None => 1
  end.

(** The events of the ledger, each with what its request carries. *)
Inductive LedgerEvent : Type :=
| StudyRecord (now : Z) (recordData : JsVal)
| TaskUpdate (id : string) (updates : JsVal)
| GoalUpdate (id : string) (updates : JsVal)
| ReviewComplete (id : string) (request : JsVal)
| RoutineCreate (now : Z) (routineData : JsVal).

Definition handle (a : Auth) (e : LedgerEvent) : Handler Response :=
  match e with
  | StudyRecord now recordData => study_record_post a now recordData
  | TaskUpdate id updates => task_put a id updates
  | GoalUpdate id updates => goal_put a id updates
  | ReviewComplete id request => review_complete_post a id request
  | RoutineCreate now routineData => routine_post a now routineData
  end.

(** A study record does not carry a negative duration. *)
Definition nonneg_duration (e : LedgerEvent) : Prop :=
  match e with
  | StudyRecord _ recordData =>
      forall d, get_prop recordData "duration" = Some (JNum d) -> 0 <= d
  | _ => True
  end.

(** A value that [v || 0] turns into an integer: a number, a boolean,
    [null], [undefined] or [""]. *)
Definition numberlike (v : JsVal) : Prop :=
  is_Some (to_number (js_or v (JNum 0))).

(** The requests on which the arithmetic of the ledger stays within the
    integers: the [xp] of the profile is number-like and, for a study
    record, so are the [streak] of the profile and the [duration] of the
    record. *)
Definition in_fragment (a : Auth) (e : LedgerEvent) (s : gmap string JsVal)
  : Prop :=
  match a with
  | AuthError _ => True
  | AuthOk userId =>
      numberlike (stored_xp userId s)
      /\ match e with
         | StudyRecord _ recordData =>
             numberlike (get_opt (kv_get (profile_key userId) s) "streak")
             /\ (forall dv, get_prop recordData "duration" = Some dv ->
                            numberlike dv)
         | _ => True
         end
  end.

(** No numeric [xp] of a profile is smaller in [s'] than in [s]. *)
Definition xp_mono (s s' : gmap string JsVal) : Prop :=
  forall userId x,
    stored_xp userId s = JNum x ->
    exists x', stored_xp userId s' = JNum x' /\ x <= x'.

(** The fields of the document stored under a key; none when nothing
    is stored there. *)
Inductive fields_at (k : string) (s : gmap string JsVal)
  : gmap string JsVal -> Prop :=
| fields_at_none : s !! k = None -> fields_at k s ∅
| fields_at_obj p :
    s !! k = Some (JObj p) -> is_json (JObj p) -> fields_at k s p.

(** The requests that read: each with what it carries besides the
    caller. *)
Inductive Query : Type :=
| ProfileGet
| RoutineGet
| StudyRecordsGet
| GoalsGet
| TasksGet
| DocumentsGet
| ReviewsDueGet (now : Z).

Definition answer (parse : string -> option Z) (a : Auth) (q : Query)
  : Handler Response :=
  match q with
  | ProfileGet => profile_get a
  | RoutineGet => routine_get a
  | StudyRecordsGet => study_records_get parse a
  | GoalsGet => goals_get a
  | TasksGet => tasks_get a
  | DocumentsGet => documents_get a
  | ReviewsDueGet now => reviews_due_get a now
  end.

(** ** Sample data for the instances *)

(** The store which a handler leaves. *)
Definition store_after {A} (h : Handler A) (s : gmap string JsVal)
  : gmap string JsVal :=
  match h s with
  | Done _ s' => s'
  | Thrown s' => s'
  | Unmodelled => s
  end.

(** The store after the signup of user [u1]. *)
Definition new_account : gmap string JsVal :=
  {[ profile_key "u1" :=
       JObj (new_profile (JStr "Ada") (JStr "ada@example.org")
                         (JStr "2024-01-01T00:00:00.000Z")) ]}.

(** The profile of a user who studied on 2024-01-01, and its store. *)
Definition studied_profile : gmap string JsVal :=
  {[ "name" := JStr "Ada"; "xp" := JNum 530; "streak" := JNum 4;
     "lastStudyDate" := JStr "2024-01-01T09:30:00.000Z";
     "onboardingComplete" := JBool true ]}.

Definition studied_account : gmap string JsVal :=
  {[ profile_key "u1" := JObj studied_profile ]}.

(** A task of [u1], not completed, next to the profile. *)
Definition open_task : gmap string JsVal :=
  {[ "userId" := JStr "u1"; "title" := JStr "Essay"; "completed" := JBool false ]}.

Definition task_store : gmap string JsVal :=
  <[ record_key "task" "u1:1" := JObj open_task ]> studied_account.

(** A schedule of [u1] studied on 2024-01-01 whose first review is
    completed, and one studied on 2024-03-01. *)
Definition january_schedule : gmap string JsVal :=
  {[ "userId" := JStr "u1"; "topic" := JStr "X";
     "reviews" := JArr (reviews_at 1704067200000);
     "completedReviews" := JArr [JStr "2024-01-02T00:00:00.000Z"] ]}.

Definition march_schedule : gmap string JsVal :=
  {[ "userId" := JStr "u1"; "topic" := JStr "Y";
     "reviews" := JArr (reviews_at 1709251200000);
     "completedReviews" := JArr [] ]}.

Definition review_store : gmap string JsVal :=
  <[ "review:u1:1" := JObj january_schedule ]> studied_account.

(** * Properties *)

(** ** The calendar *)

Section Calendar.

Lemma DayFromYear_succ y : DayFromYear (y + 1) = DayFromYear y + DaysInYear y.
Proof.
  unfold DayFromYear, DaysInYear.
  repeat match goal with
         | |- context [ (?a =? ?b) ] => destruct (Z.eqb_spec a b)
         end; cbn [negb]; Z.to_euclidean_division_equations; lia.
Qed.

Lemma DaysInYear_cases y : DaysInYear y = 365 \/ DaysInYear y = 366.
Proof.
  unfold DaysInYear.
  repeat match goal with
         | |- context [ (?a =? ?b) ] => destruct (Z.eqb_spec a b)
         end; cbn [negb]; lia.
Qed.

Lemma DayFromYear_lt y1 y2 : y1 < y2 -> DayFromYear y1 < DayFromYear y2.
Proof.
  intros H. unfold DayFromYear. Z.to_euclidean_division_equations; lia.
Qed.

(** [YearFromDay d] is the year that contains day [d]. *)
Lemma YearFromDay_spec d :
  DayFromYear (YearFromDay d) <= d < DayFromYear (YearFromDay d + 1).
Proof.
  unfold YearFromDay.
  set (y := 1970 + d * 400 / 146097).
  assert (Hy : 146097 * (y - 1970) <= d * 400 < 146097 * (y - 1970) + 146097)
    by (subst y; Z.to_euclidean_division_equations; lia).
  clearbody y.
  destruct (Z.ltb_spec d (DayFromYear y)) as [H1|H1].
  - replace (y - 1 + 1) with y by lia. split; [|lia].
    unfold DayFromYear in *. Z.to_euclidean_division_equations; lia.
  - destruct (Z.leb_spec (DayFromYear (y + 1)) d) as [H2|H2]; [|lia].
    split; [lia|].
    unfold DayFromYear in *. Z.to_euclidean_division_equations; lia.
Qed.

(** It is the only such year: the largest [y] with [DayFromYear y <= d]. *)
Lemma YearFromDay_unique d y :
  DayFromYear y <= d < DayFromYear (y + 1) -> YearFromDay d = y.
Proof.
  intros Hy. pose proof (YearFromDay_spec d) as Hd.
  destruct (Z.lt_trichotomy (YearFromDay d) y) as [Hlt|[Heq|Hgt]]; [|done|].
  - assert (DayFromYear (YearFromDay d + 1) <= DayFromYear y); [|lia].
    destruct (Z.eq_dec (YearFromDay d + 1) y) as [->|]; [lia|].
    apply Z.lt_le_incl, DayFromYear_lt. lia.
  - assert (DayFromYear (y + 1) <= DayFromYear (YearFromDay d)); [|lia].
    destruct (Z.eq_dec (y + 1) (YearFromDay d)) as [->|]; [lia|].
    apply Z.lt_le_incl, DayFromYear_lt. lia.
Qed.

Lemma DayWithinYear_range d :
  0 <= DayWithinYear d < 365 + InLeapYear d.
Proof.
  unfold DayWithinYear, InLeapYear.
  pose proof (YearFromDay_spec d) as Hd.
  rewrite DayFromYear_succ in Hd.
  destruct (DaysInYear_cases (YearFromDay d)) as [E|E]; rewrite E in *;
    simpl; lia.
Qed.

Lemma InLeapYear_cases d : InLeapYear d = 0 \/ InLeapYear d = 1.
Proof. unfold InLeapYear. case (_ =? _); auto. Qed.

Lemma MonthFromDay_range d : 0 <= MonthFromDay d <= 11.
Proof.
  unfold MonthFromDay.
  repeat match goal with
         | |- context [ (?a <? ?b) ] => destruct (Z.ltb_spec a b)
         end; lia.
Qed.

Lemma DayWithinYear_decompose d :
  DayWithinYear d
  = month_start (InLeapYear d) (MonthFromDay d) + DateFromDay d - 1.
Proof.
  unfold DateFromDay, MonthFromDay.
  repeat match goal with
         | |- context [ (?a <? ?b) ] => destruct (Z.ltb_spec a b)
         end; simpl; lia.
Qed.

Lemma DateFromDay_range d : 1 <= DateFromDay d <= 31.
Proof.
  pose proof (DayWithinYear_range d) as Hr.
  pose proof (InLeapYear_cases d) as Hl.
  unfold DateFromDay, MonthFromDay.
  repeat match goal with
         | |- context [ (?a <? ?b) ] => destruct (Z.ltb_spec a b)
         end; simpl; lia.
Qed.

(** A day is determined by its year, month and date. *)
Lemma ymd_inj d1 d2 :
  YearFromDay d1 = YearFromDay d2 ->
  MonthFromDay d1 = MonthFromDay d2 ->
  DateFromDay d1 = DateFromDay d2 ->
  d1 = d2.
Proof.
  intros Hy Hm Hd.
  assert (Hl : InLeapYear d1 = InLeapYear d2) by (unfold InLeapYear; by rewrite Hy).
  pose proof (DayWithinYear_decompose d1) as H1.
  pose proof (DayWithinYear_decompose d2) as H2.
  rewrite Hm, Hd, Hl, <- H2 in H1. unfold DayWithinYear in H1.
  rewrite Hy in H1. lia.
Qed.

(** The years of the days of valid time values have at most six
    digits. *)
Lemma YearFromDay_bound d :
  -100000000 <= d <= 100000000 -> -271821 <= YearFromDay d <= 275760.
Proof.
  intros Hd. pose proof (YearFromDay_spec d) as Hs.
  split.
  - destruct (Z.le_gt_cases (-271821) (YearFromDay d)) as [|Hlt]; [done|].
    assert (DayFromYear (YearFromDay d + 1) <= DayFromYear (-271821)).
    { destruct (Z.eq_dec (YearFromDay d + 1) (-271821)) as [->|]; [lia|].
      apply Z.lt_le_incl, DayFromYear_lt. lia. }
    assert (DayFromYear (-271821) < -100000000) by reflexivity. lia.
  - destruct (Z.le_gt_cases (YearFromDay d) 275760) as [|Hlt]; [done|].
    assert (DayFromYear 275761 <= DayFromYear (YearFromDay d)).
    { destruct (Z.eq_dec 275761 (YearFromDay d)) as [<-|]; [lia|].
      apply Z.lt_le_incl, DayFromYear_lt. lia. }
    assert (100000000 < DayFromYear 275761) by reflexivity. lia.
Qed.

Lemma Day_valid t : Z.abs t <= maxTime -> -100000000 <= Day t <= 100000000.
Proof.
  unfold Day, msPerDay, maxTime. intros H.
  Z.to_euclidean_division_equations; lia.
Qed.

Lemma Day_minus_day t : Day (t - 86400000) = Day t - 1.
Proof. unfold Day, msPerDay. Z.to_euclidean_division_equations; lia. Qed.

End Calendar.

(** ** Decimal digits and the printed date *)

Section Printing.

Lemma digit_code x :
  0 <= x <= 9 -> N_of_ascii (digit_char x) = (48 + Z.to_N x)%N.
Proof.
  intros Hx. unfold digit_char. apply N_ascii_embedding. lia.
Qed.

Lemma digit_char_inj x y :
  0 <= x <= 9 -> 0 <= y <= 9 -> digit_char x = digit_char y -> x = y.
Proof.
  intros Hx Hy E. apply (f_equal N_of_ascii) in E.
  rewrite !digit_code in E by done. lia.
Qed.

Lemma digit_char_neq x (c : ascii) :
  0 <= x <= 9 -> (N_of_ascii c < 48 \/ 57 < N_of_ascii c)%N ->
  digit_char x <> c.
Proof.
  intros Hx Hc E. apply (f_equal N_of_ascii) in E.
  rewrite digit_code in E by done. lia.
Qed.

Lemma mod10_digit x : 0 <= x mod 10 <= 9.
Proof. pose proof (Z.mod_pos_bound x 10). lia. Qed.

Lemma digits_length w n : String.length (digits w n) = w.
Proof. induction w as [|w IH]; simpl; [done|by rewrite IH]. Qed.

(** Two equal digit strings: equal numbers, up to the digits that are
    not printed. *)
Lemma digits_inj_mod w n m :
  digits w n = digits w m -> n mod 10 ^ Z.of_nat w = m mod 10 ^ Z.of_nat w.
Proof.
  induction w as [|w IH]; intros E.
  - simpl. by rewrite !Z.mod_1_r.
  - simpl in E. injection E as Eh Et.
    apply digit_char_inj in Eh; [|apply mod10_digit..].
    specialize (IH Et).
    rewrite Nat2Z.inj_succ, Z.pow_succ_r by lia.
    rewrite (Z.mul_comm 10).
    rewrite !Z.rem_mul_r by lia. by rewrite IH, Eh.
Qed.

Lemma digits_inj w n m :
  0 <= n < 10 ^ Z.of_nat w -> 0 <= m < 10 ^ Z.of_nat w ->
  digits w n = digits w m -> n = m.
Proof.
  intros Hn Hm E. apply digits_inj_mod in E.
  by rewrite !Z.mod_small in E.
Qed.

(** A digit string is a prefix code: what follows it can be read off. *)
Lemma digits_app_inj w n m r1 r2 :
  digits w n +:+ r1 = digits w m +:+ r2 ->
  digits w n = digits w m /\ r1 = r2.
Proof.
  induction w as [|w IH]; simpl; intros E; [done|].
  injection E as Eh Et. destruct (IH Et) as [-> ->]. by rewrite Eh.
Qed.

Lemma split_T0_app_T a b :
  split_T0 a = a -> split_T0 (a +:+ String "T" b) = a.
Proof.
  induction a as [|c a IH]; simpl; [done|].
  destruct (Ascii.eqb c "T"); [done|].
  intros E. injection E as E. by rewrite IH.
Qed.

Lemma split_T0_app a b :
  split_T0 a = a -> split_T0 b = b -> split_T0 (a +:+ b) = a +:+ b.
Proof.
  induction a as [|c a IH]; simpl; [done|].
  destruct (Ascii.eqb c "T"); [done|].
  intros E Hb. injection E as E. by rewrite IH.
Qed.

Lemma split_T0_digits w n : split_T0 (digits w n) = digits w n.
Proof.
  induction w as [|w IH]; simpl; [done|].
  destruct (Ascii.eqb_spec (digit_char (n / 10 ^ Z.of_nat w mod 10)) "T") as [E|_].
  - exfalso. revert E. apply digit_char_neq.
    + apply mod10_digit.
    + right. reflexivity.
  - by rewrite IH.
Qed.

Lemma split_T0_year_string y : split_T0 (year_string y) = year_string y.
Proof.
  unfold year_string.
  destruct (_ && _); [apply split_T0_digits|].
  cbn [split_T0]. rewrite split_T0_digits. by destruct (0 <=? y).
Qed.

Lemma split_T0_date_string d : split_T0 (date_string d) = date_string d.
Proof.
  unfold date_string.
  repeat first [ apply split_T0_year_string | apply split_T0_digits
               | apply split_T0_app | reflexivity ].
Qed.

(** The date that [toISOString ().split ('T')[0]] yields is the
    calendar date of the day of the instant. *)
Lemma split_T0_iso_string t : split_T0 (iso_string t) = date_string (Day t).
Proof.
  unfold iso_string. apply split_T0_app_T, split_T0_date_string.
Qed.

Lemma String_inj c1 c2 a b : String c1 a = String c2 b -> c1 = c2 /\ a = b.
Proof. by intros [= -> ->]. Qed.

Lemma app_String c a r : String c a +:+ r = String c (a +:+ r).
Proof. reflexivity. Qed.

Lemma digits_S w n :
  digits (S w) n
  = String (digit_char (n / 10 ^ Z.of_nat w mod 10)) (digits w n).
Proof. reflexivity. Qed.

Lemma year_string_app_inj y1 y2 r1 r2 :
  -1000000 < y1 < 1000000 -> -1000000 < y2 < 1000000 ->
  year_string y1 +:+ r1 = year_string y2 +:+ r2 ->
  y1 = y2 /\ r1 = r2.
Proof.
  intros H1 H2. unfold year_string.
  destruct (Z.leb_spec 0 y1) as [P1|P1], (Z.leb_spec y1 9999) as [Q1|Q1],
           (Z.leb_spec 0 y2) as [P2|P2], (Z.leb_spec y2 9999) as [Q2|Q2];
    cbn [andb]; try lia; intros E.
  (* both years print as four digits *)
  1: { apply digits_app_inj in E as [E ->].
       apply digits_inj in E; [done|simpl; lia..]. }
  (* a digit against a sign *)
  1-2: rewrite (digits_S 3), !app_String in E; apply String_inj in E as [E _];
       exfalso; revert E;
       (apply digit_char_neq; [apply mod10_digit | left; reflexivity]).
  1,4: rewrite (digits_S 3), !app_String in E; apply String_inj in E as [E _];
       symmetry in E; exfalso; revert E;
       (apply digit_char_neq; [apply mod10_digit | left; reflexivity]).
  (* two signs *)
  all: rewrite !app_String in E; apply String_inj in E as [Es E];
       try discriminate Es.
  all: apply digits_app_inj in E as [E ->].
  all: apply digits_inj in E; [|simpl; lia..].
  all: split; [lia|done].
Qed.

(** Two days of valid time values with the same printed date are the
    same day. *)
Lemma date_string_inj d1 d2 :
  -100000000 <= d1 <= 100000000 -> -100000000 <= d2 <= 100000000 ->
  date_string d1 = date_string d2 -> d1 = d2.
Proof.
  intros H1 H2 E. unfold date_string in E.
  pose proof (YearFromDay_bound d1 H1). pose proof (YearFromDay_bound d2 H2).
  pose proof (MonthFromDay_range d1). pose proof (MonthFromDay_range d2).
  pose proof (DateFromDay_range d1). pose proof (DateFromDay_range d2).
  apply year_string_app_inj in E as [Ey E]; [|lia..].
  rewrite app_String in E. apply String_inj in E as [_ E].
  apply digits_app_inj in E as [Em E].
  apply digits_inj in Em; [|simpl; lia..].
  rewrite app_String in E. apply String_inj in E as [_ E].
  apply digits_inj in E; [|simpl; lia..].
  apply ymd_inj; [done|lia|done].
Qed.

End Printing.

(** ** The store and the documents in it *)

Section Store.

Implicit Types (s : gmap string JsVal) (m : gmap string JsVal).

Lemma TimeClip_valid t : valid_time t -> TimeClip t = Some t.
Proof.
  unfold valid_time, TimeClip. intros H.
  by destruct (Z.leb_spec (Z.abs t) maxTime); [|lia].
Qed.

Lemma TimeClip_invalid t : ~ valid_time t -> TimeClip t = None.
Proof.
  unfold valid_time, TimeClip. intros H.
  by destruct (Z.leb_spec (Z.abs t) maxTime); [lia|].
Qed.

Lemma kv_get_lookup k s v : s !! k = Some v -> kv_get k s = v.
Proof. unfold kv_get. by intros ->. Qed.

Lemma kv_get_set_eq k v s : kv_get k (kv_set k v s) = jsonify v.
Proof. unfold kv_get, kv_set. by rewrite lookup_insert_eq. Qed.

Lemma kv_get_set_ne k k' v s : k <> k' -> kv_get k' (kv_set k v s) = kv_get k' s.
Proof. intros H. unfold kv_get, kv_set. by rewrite lookup_insert_ne. Qed.

Lemma profile_key_inj u1 u2 : profile_key u1 = profile_key u2 -> u1 = u2.
Proof. unfold profile_key. intros H. by injection H. Qed.

Lemma jsonify_obj m :
  jsonify (JObj m)
  = JObj (omap (fun x => match x with
                         | JUndefined => None
                         | _ => Some (jsonify x)
                         end) m).
Proof. reflexivity. Qed.

(** A field of a document after [JSON.stringify]. *)
Lemma get_opt_jsonify m f :
  get_opt (jsonify (JObj m)) f
  = match m !! f with
    | Some JUndefined | None => JUndefined
    | Some v => jsonify v
    end.
Proof.
  rewrite jsonify_obj. unfold get_opt, get_prop. simpl.
  rewrite lookup_omap. by destruct (m !! f) as [[]|].
Qed.

Lemma get_prop_lookup m f v : m !! f = Some v -> get_prop (JObj m) f = Some v.
Proof. unfold get_prop. by intros ->. Qed.

Lemma get_opt_lookup m f v : m !! f = Some v -> get_opt (JObj m) f = v.
Proof. unfold get_opt, get_prop. simpl. by intros ->. Qed.

(** The fields of a JSON object are JSON values. *)
Lemma is_json_field m f v : is_json (JObj m) -> m !! f = Some v -> is_json v.
Proof.
  intros [_ E] Hf. rewrite jsonify_obj in E. injection E as E.
  apply (f_equal (fun m' => m' !! f)) in E.
  rewrite lookup_omap, Hf in E. simpl in E.
  destruct v; try done; split; try done; congruence.
Qed.

Lemma is_json_obj m :
  (forall f v, m !! f = Some v -> is_json v) -> is_json (JObj m).
Proof.
  intros H. split; [done|]. rewrite jsonify_obj. f_equal.
  apply map_eq. intros k. rewrite lookup_omap.
  destruct (m !! k) as [v|] eqn:E; [|done]. simpl.
  destruct (H k v E) as [Hv Hj]. rewrite Hj. by destruct v.
Qed.

Lemma is_json_union u p :
  is_json (JObj u) -> is_json (JObj p) -> is_json (JObj (u ∪ p)).
Proof.
  intros Hu Hp. apply is_json_obj. intros f v Hf.
  apply lookup_union_Some_raw in Hf as [Hf|[_ Hf]].
  - exact (is_json_field _ _ _ Hu Hf).
  - exact (is_json_field _ _ _ Hp Hf).
Qed.

Lemma is_json_insert m k v :
  is_json (JObj m) -> is_json v -> is_json (JObj (<[k := v]> m)).
Proof.
  intros Hm Hv. apply is_json_obj. intros f w Hf.
  apply lookup_insert_Some in Hf as [[_ <-]|[_ Hf]]; [done|].
  exact (is_json_field _ _ _ Hm Hf).
Qed.

Lemma jsonify_arr l :
  jsonify (JArr l)
  = JArr (map (fun x => match x with
                        | JUndefined => JNull
                        | _ => jsonify x
                        end) l).
Proof. reflexivity. Qed.

(** An array of JSON values with one more JSON value at its end. *)
Lemma is_json_arr_snoc l v :
  is_json (JArr l) -> is_json v -> is_json (JArr (l ++ [v])).
Proof.
  intros [_ Hl] [Hv Hj]. split; [done|].
  rewrite jsonify_arr in *. injection Hl as Hl.
  rewrite map_app, Hl. simpl. rewrite Hj. by destruct v.
Qed.

Lemma spread_empty_r v : lit_spread v ∅ = spread v.
Proof. unfold lit_spread. apply (right_id_L ∅ (∪)). Qed.

End Store.

(** Unfolds a handler into the effects it has on the store. *)
Ltac run_handler :=
cbv [routine_post study_record_post profile_post record_put goal_put task_put
     review_schedule_post reviews_due_get review_complete_post
     authenticated try_catch bind ret get set getByPrefix eval now_iso
     ebind or_throw or_beyond toISOString].

(** Two keys with different prefixes. *)
Ltac key_neq := let H := fresh in intros H; discriminate H.

(** ** The ledger *)

Section Ledger.

Implicit Types (s : gmap string JsVal) (m p u : gmap string JsVal).

(** C10.  [POST /profile] stores the shallow merge of the stored
    profile overridden by the update, whatever fields the update
    names: every field of the update replaces the stored one as it
    is ([xp], [streak], [level], [lastStudyDate], [onboardingComplete]
    like any other), and the fields it does not name are kept. *)
Theorem profile_post_merges userId p u s :
  s !! profile_key userId = Some (JObj p) ->
  is_json (JObj p) -> is_json (JObj u) ->
  profile_post (AuthOk userId) (JObj u) s
  = Done (json (lit_set "profile" (JObj (u ∪ p)) success) 200)
         (<[profile_key userId := JObj (u ∪ p)]> s)
  /\ (forall k v, u !! k = Some v -> (u ∪ p) !! k = Some v)
  /\ (forall k, u !! k = None -> (u ∪ p) !! k = p !! k).
Proof.
  intros Hs Hp Hu. split; [|split].
  - run_handler.
    rewrite (kv_get_lookup _ _ _ Hs), spread_empty_r.
    unfold lit_spread, kv_set. cbn [spread].
    destruct (is_json_union u p Hu Hp) as [_ E]. by rewrite E.
  - intros k v Hk. by apply lookup_union_Some_l.
  - intros k Hk. by rewrite lookup_union_r.
Qed.

End Ledger.

(** ** Crediting XP *)

Section Credit.

Implicit Types (s : gmap string JsVal) (m o : gmap string JsVal).

Lemma js_or_num k : js_or (JNum k) (JNum 0) = JNum k.
Proof.
  unfold js_or. simpl. destruct (Z.eqb_spec k 0) as [->|]; reflexivity.
Qed.

Lemma credit_xp_num profile x delta :
  get_opt profile "xp" = JNum x ->
  credit_xp profile (JNum delta) = Val (JNum (x + delta)).
Proof. intros E. unfold credit_xp. by rewrite E, js_or_num. Qed.

(** Whatever [credit_xp] returns on a numeric [xp] and a number that is
    not negative, it is a number that is not smaller. *)
Lemma credit_xp_mono profile x delta v xp :
  get_opt profile "xp" = JNum x ->
  to_number v = Some delta -> 0 <= delta ->
  credit_xp profile v = Val xp ->
  xp = JNum (x + delta).
Proof.
  intros E Hv Hd. unfold credit_xp, js_add. rewrite E, js_or_num, Hv. simpl.
  by intros [= <-].
Qed.

Lemma stored_xp_set_other k v s userId :
  k <> profile_key userId ->
  stored_xp userId (kv_set k v s) = stored_xp userId s.
Proof. intros H. unfold stored_xp. by rewrite kv_get_set_ne. Qed.

Lemma stored_xp_set_profile userId o s xp :
  o !! "xp" = Some xp ->
  stored_xp userId (kv_set (profile_key userId) (JObj o) s)
  = match xp with JUndefined => JUndefined | _ => jsonify xp end.
Proof.
  intros H. unfold stored_xp. rewrite kv_get_set_eq, get_opt_jsonify, H.
  by destruct xp.
Qed.

Lemma stored_xp_set_profile_num userId o s n :
  o !! "xp" = Some (JNum n) ->
  stored_xp userId (kv_set (profile_key userId) (JObj o) s) = JNum n.
Proof. intros H. by rewrite (stored_xp_set_profile _ _ _ _ H). Qed.

Lemma xp_mono_refl s : xp_mono s s.
Proof. intros u x H. exists x. split; [done|lia]. Qed.

Lemma xp_mono_trans s1 s2 s3 : xp_mono s1 s2 -> xp_mono s2 s3 -> xp_mono s1 s3.
Proof.
  intros H12 H23 u x H.
  destruct (H12 u x H) as (x2 & H2 & L2).
  destruct (H23 u x2 H2) as (x3 & H3 & L3).
  exists x3. split; [done|lia].
Qed.

(** A write under a key that is no profile key. *)
Lemma xp_mono_set_other k v s :
  (forall userId, k <> profile_key userId) -> xp_mono s (kv_set k v s).
Proof.
  intros Hk u x H. exists x. split; [|lia].
  by rewrite stored_xp_set_other.
Qed.

(** The write of a profile whose [xp] was credited. *)
Lemma xp_mono_credit userId o s v delta xp :
  to_number v = Some delta -> 0 <= delta ->
  credit_xp (kv_get (profile_key userId) s) v = Val xp ->
  o !! "xp" = Some xp ->
  xp_mono s (kv_set (profile_key userId) (JObj o) s).
Proof.
  intros Hv Hd Hc Ho u x H.
  destruct (decide (u = userId)) as [->|Hne].
  - unfold stored_xp in H.
    rewrite (credit_xp_mono _ _ _ _ _ H Hv Hd Hc) in Ho.
    exists (x + delta). split; [|lia].
    by rewrite (stored_xp_set_profile _ _ _ _ Ho).
  - exists x. split; [|lia]. rewrite stored_xp_set_other; [done|].
    intros E. by apply profile_key_inj in E.
Qed.

Lemma xp_mono_after_set_other k v s s1 :
  (forall userId, k <> profile_key userId) ->
  xp_mono s s1 -> xp_mono s (kv_set k v s1).
Proof.
  intros Hk H. eapply xp_mono_trans; [exact H|]. by apply xp_mono_set_other.
Qed.

Lemma xp_mono_after_credit userId o s s1 v delta xp :
  credit_xp (kv_get (profile_key userId) s1) v = Val xp ->
  o !! "xp" = Some xp ->
  to_number v = Some delta -> 0 <= delta ->
  xp_mono s s1 ->
  xp_mono s (kv_set (profile_key userId) (JObj o) s1).
Proof.
  intros Hc Ho Hv Hd H. eapply xp_mono_trans; [exact H|].
  by eapply xp_mono_credit.
Qed.

End Credit.

(** ** No ledger event lowers a profile's XP *)

(** Case analysis on the next test the unfolded handler makes. *)
Ltac innermost e :=
  lazymatch e with
  | context [match ?e' with Val _ => _ | Exn => _ | Beyond => _ end] => innermost e'
  | context [match ?e' with Some _ => _ | None => _ end] => innermost e'
  | context [match ?e' with Done _ _ => _ | Thrown _ => _ | Unmodelled => _ end] => innermost e'
  | context [if ?e' then _ else _] => innermost e'
  | _ => destruct e eqn:?
  end.

Ltac next_case :=
  match goal with
  | |- context [match ?e with Val _ => _ | Exn => _ | Beyond => _ end] => innermost e
  | |- context [match ?e with Some _ => _ | None => _ end] => innermost e
  | |- context [match ?e with Done _ _ => _ | Thrown _ => _ | Unmodelled => _ end] => innermost e
  | |- context [if ?e then _ else _] => innermost e
  end.

Section Monotone.

Implicit Types (s : gmap string JsVal).

Lemma floor_div15_nonneg dv j :
  (forall d, dv = JNum d -> 0 <= d) ->
  floor_div15_times10 (js_or dv (JNum 0)) = Some j ->
  exists delta, to_number j = Some delta /\ 0 <= delta.
Proof.
  intros Hd. unfold floor_div15_times10.
  destruct (to_number (js_or dv (JNum 0))) as [x|] eqn:E; [|done].
  intros [= <-]. exists (x / 15 * 10). split; [done|].
  assert (0 <= x); [|Z.to_euclidean_division_equations; lia].
  unfold js_or in E. destruct dv as [| |[]|d|[]| |]; simpl in E;
    try (injection E as <-; lia); try done.
  destruct (Z.eqb_spec d 0); simpl in E; injection E as <-; [lia|].
  by apply Hd.
Qed.

(** Closes the case of a handler by going through its writes, last one
    first: writes under other keys and the write of the credited
    profile. *)
Ltac credited :=
  repeat first
    [ apply xp_mono_refl
    | apply xp_mono_after_set_other; [intros ?; key_neq|]
    | eapply xp_mono_after_credit;
      [ match goal with H : credit_xp _ _ = Val _ |- _ => apply H end
      | unfold lit_set; by simplify_map_eq
      | reflexivity | lia | ] ].

Lemma routine_post_mono a now routineData s r s' :
  routine_post a now routineData s = Done r s' -> xp_mono s s'.
Proof.
  destruct a as [userId|e]; run_handler.
  2: { intros [= _ <-]. apply xp_mono_refl. }
  repeat next_case; intros [= _ <-]; credited.
Qed.

Lemma review_complete_post_mono a id request s r s' :
  review_complete_post a id request s = Done r s' -> xp_mono s s'.
Proof.
  destruct a as [userId|e]; run_handler.
  2: { intros [= _ <-]. apply xp_mono_refl. }
  repeat next_case; intros [= _ <-]; credited.
Qed.

Lemma record_put_mono kind award notFound failed a id updates s r s' :
  (forall i u, record_key kind i <> profile_key u) -> 0 <= award ->
  record_put kind award notFound failed a id updates s = Done r s' ->
  xp_mono s s'.
Proof.
  intros Hk Ha. destruct a as [userId|e]; run_handler.
  2: { intros [= _ <-]. apply xp_mono_refl. }
  repeat next_case; intros [= _ <-];
    repeat first
      [ apply xp_mono_refl
      | apply xp_mono_after_set_other; [intros ?; apply Hk|]
      | eapply xp_mono_after_credit;
        [ match goal with H : credit_xp _ _ = Val _ |- _ => apply H end
        | unfold lit_set; by simplify_map_eq
        | reflexivity | lia | ] ].
Qed.

Lemma study_record_post_mono a now recordData s r s' :
  (forall d, get_prop recordData "duration" = Some (JNum d) -> 0 <= d) ->
  study_record_post a now recordData s = Done r s' -> xp_mono s s'.
Proof.
  intros Hd. destruct a as [userId|e]; run_handler.
  2: { intros [= _ <-]. apply xp_mono_refl. }
  repeat next_case; intros [= _ <-]; try (by credited).
  match goal with
  | H : floor_div15_times10 _ = Some _ |- _ =>
      apply floor_div15_nonneg in H as (delta & Hn & Hpos);
      [|intros d ->; by apply Hd]
  end.
  eapply xp_mono_after_credit; [ | | apply Hn | apply Hpos | ].
  - match goal with H : credit_xp _ _ = Val _ |- _ => apply H end.
  - unfold lit_set. by simplify_map_eq.
  - credited.
Qed.

(** The handlers answer every request: an exception ends in the 500
    response of the [catch]. *)
Lemma try_catch_not_thrown c msg s s' : try_catch c msg s <> Thrown s'.
Proof. unfold try_catch. by destruct (c s). Qed.

Lemma handle_not_thrown a e s s' : handle a e s <> Thrown s'.
Proof.
  destruct e, a; simpl; try done;
    first [ apply try_catch_not_thrown
          | unfold task_put, goal_put, record_put; simpl;
            apply try_catch_not_thrown ].
Qed.

Lemma credit_xp_defined profile v :
  numberlike (get_opt profile "xp") -> is_Some (to_number v) ->
  credit_xp profile v <> Beyond.
Proof.
  intros [x Hx] [d Hd]. unfold credit_xp, js_add. by rewrite Hx, Hd.
Qed.

Lemma next_streak_defined profile now :
  numberlike (get_opt profile "streak") -> next_streak profile now <> Beyond.
Proof.
  intros [k Hk]. unfold next_streak, js_add. rewrite Hk.
  cbv [ebind or_throw or_beyond toISOString to_number].
  destruct (TimeClip now); [|done].
  destruct (get_opt profile "lastStudyDate"); try done;
    repeat next_case; done.
Qed.

Lemma floor_div15_defined dv :
  numberlike dv -> is_Some (floor_div15_times10 (js_or dv (JNum 0))).
Proof. intros [d Hd]. unfold floor_div15_times10. by rewrite Hd. Qed.

Lemma floor_div15_number v j :
  floor_div15_times10 v = Some j -> is_Some (to_number j).
Proof.
  unfold floor_div15_times10. destruct (to_number v); [|done].
  by intros [= <-].
Qed.

(** Within the fragment the model has an outcome for every event. *)
Lemma handle_defined a e s :
  in_fragment a e s -> handle a e s <> Unmodelled.
Proof.
  destruct a as [userId|msg]; [|by destruct e].
  intros [Hxp He]. unfold stored_xp in Hxp.
  destruct e as [now rd|id u|id u|id q|now rd]; simpl; run_handler;
    repeat next_case; try done;
    repeat match goal with
           | H : context [kv_get (profile_key _) (kv_set _ _ _)] |- _ =>
               rewrite kv_get_set_ne in H by key_neq
           end;
    intros _.
  all: try match goal with
           | H : next_streak _ _ = Beyond |- _ =>
               revert H; apply next_streak_defined; exact (proj1 He)
           end.
  all: try match goal with
           | H : floor_div15_times10 _ = None |- _ =>
               destruct (floor_div15_defined _ (proj2 He _ eq_refl)) as [? E];
               congruence
           end.
  all: try match goal with
           | H : push_completed _ _ = Beyond |- _ =>
               unfold push_completed in H; by repeat case_match
           end.
  all: match goal with
       | H : credit_xp _ ?v = Beyond |- _ =>
           revert H; apply credit_xp_defined; [exact Hxp|]
       end.
  all: first [ by eexists
             | match goal with
               | F : floor_div15_times10 _ = Some _ |- _ =>
                   exact (floor_div15_number _ _ F)
               end ].
Qed.


End Monotone.

(** ** Completing a task *)

Section TaskCompletion.

Implicit Types (s t u : gmap string JsVal).

Lemma strict_eq_str_refl a : strict_eq (JStr a) (JStr a) = true.
Proof. simpl. apply String.eqb_refl. Qed.


End TaskCompletion.

(** ** Completing a review *)

Section ReviewCompletion.

Implicit Types (s m q : gmap string JsVal).


End ReviewCompletion.

(** ** Logging a study session *)

Section StudySession.

Implicit Types (s m q : gmap string JsVal).

Lemma Day_valid_day t : valid_time t -> valid_day (Day t).
Proof. apply Day_valid. Qed.

Lemma date_string_eqb d1 d2 :
  valid_day d1 -> valid_day d2 ->
  String.eqb (date_string d1) (date_string d2) = (d1 =? d2).
Proof.
  intros H1 H2. destruct (Z.eqb_spec d1 d2) as [->|Hne].
  - apply String.eqb_refl.
  - apply String.eqb_neq. intros E. by apply Hne, date_string_inj.
Qed.

(** The streak the handler computes. *)
Lemma next_streak_spec m now last k :
  valid_time now -> valid_time (now - 86400000) ->
  m !! "streak" = Some (JNum k) ->
  last_study_day (get_opt (JObj m) "lastStudyDate") last ->
  next_streak (JObj m) now = Val (JNum (streak_after last (Day now) k)).
Proof.
  intros Hnow Hy Hk Hlast. unfold next_streak.
  rewrite (TimeClip_valid _ Hnow), (TimeClip_valid _ Hy).
  cbn [toISOString or_throw ebind].
  rewrite !split_T0_iso_string, Day_minus_day, (get_opt_lookup _ _ _ Hk), js_or_num.
  pose proof (Day_valid_day _ Hnow) as Vt.
  pose proof (Day_valid_day _ Hy) as Vy. rewrite Day_minus_day in Vy.
  destruct Hlast as [[->| ->]|sl D -> HD VD]; [done..|].
  rewrite HD. cbn [strict_eq streak_after ebind].
  rewrite !date_string_eqb by done.
  rewrite (Z.eqb_sym D (Day now)).
  destruct (Day now =? D); [done|].
  replace (D =? Day now - 1) with (Day now =? D + 1); [by destruct (_ =? _)|].
  destruct (Z.eqb_spec (Day now) (D + 1)), (Z.eqb_spec D (Day now - 1)); lia.
Qed.

(** What a study record does to the profile of a well-typed account. *)
Lemma study_record_post_done userId now q s m last k d x :
  valid_time now -> valid_time (now - 86400000) ->
  kv_get (profile_key userId) s = JObj m ->
  m !! "xp" = Some (JNum x) ->
  m !! "streak" = Some (JNum k) ->
  last_study_day (get_opt (JObj m) "lastStudyDate") last ->
  q !! "duration" = Some (JNum d) ->
  exists r s',
    study_record_post (AuthOk userId) now (JObj q) s = Done r s'
    /\ status r = 200
    /\ get_opt (body r) "xpGained" = JNum (d / 15 * 10)
    /\ get_opt (body r) "streak" = JNum (streak_after last (Day now) k)
    /\ stored_xp userId s' = JNum (x + d / 15 * 10)
    /\ get_opt (kv_get (profile_key userId) s') "streak"
       = JNum (streak_after last (Day now) k)
    /\ get_opt (kv_get (profile_key userId) s') "lastStudyDate"
       = JStr (iso_string now).
Proof.
  intros Hnow Hy Hm Hx Hk Hlast Hd. do 2 eexists. split.
  - run_handler. rewrite (TimeClip_valid _ Hnow).
    rewrite kv_get_set_ne by key_neq.
    rewrite Hm, (next_streak_spec _ _ _ _ Hnow Hy Hk Hlast).
    rewrite (get_prop_lookup _ _ _ Hd), js_or_num.
    cbn [floor_div15_times10 to_number].
    rewrite (credit_xp_num _ x) by (by apply get_opt_lookup).
    reflexivity.
  - cbn [status body json].
    rewrite !get_opt_jsonify. unfold stored_xp.
    rewrite kv_get_set_eq, !get_opt_jsonify.
    unfold lit_set. by simplify_map_eq.
Qed.



End StudySession.

(** ** The order of strings *)

Section StringOrder.

Lemma ascii_compare_refl a : Ascii.compare a a = Eq.
Proof. unfold Ascii.compare. apply N.compare_refl. Qed.

Lemma str_compare_refl a : String.compare a a = Eq.
Proof.
  induction a as [|c a IH]; simpl; [done|]. by rewrite ascii_compare_refl.
Qed.

Lemma str_le_refl a : str_le a a = true.
Proof. unfold str_le, String.leb. by rewrite str_compare_refl. Qed.

Lemma ascii_compare_eq a b : Ascii.compare a b = Eq -> a = b.
Proof. apply Ascii.compare_eq_iff. Qed.

Lemma ascii_compare_lt_trans a b c :
  Ascii.compare a b = Lt -> Ascii.compare b c = Lt -> Ascii.compare a c = Lt.
Proof.
  unfold Ascii.compare. rewrite !N.compare_lt_iff. lia.
Qed.

(** Lexicographic comparison is transitive in its strict part, and so
    is [<=]. *)
Lemma str_compare_lt_trans a b c :
  String.compare a b = Lt -> String.compare b c = Lt -> String.compare a c = Lt.
Proof.
  revert b c. induction a as [|x a IH]; intros [|y b] [|z c]; simpl; try done.
  destruct (Ascii.compare x y) eqn:Exy; try done;
    destruct (Ascii.compare y z) eqn:Eyz; try done.
  - apply ascii_compare_eq in Exy as ->, Eyz as ->.
    rewrite ascii_compare_refl. apply IH.
  - apply ascii_compare_eq in Exy as ->. by rewrite Eyz.
  - apply ascii_compare_eq in Eyz as <-. by rewrite Exy.
  - by rewrite (ascii_compare_lt_trans _ _ _ Exy Eyz).
Qed.

Lemma str_le_trans a b c :
  str_le a b = true -> str_le b c = true -> str_le a c = true.
Proof.
  unfold str_le, String.leb.
  destruct (String.compare a b) eqn:Eab; try done;
    destruct (String.compare b c) eqn:Ebc; try done; intros _ _.
  - apply String.compare_eq_iff in Eab as ->. by rewrite Ebc.
  - apply String.compare_eq_iff in Eab as ->. by rewrite Ebc.
  - apply String.compare_eq_iff in Ebc as <-. by rewrite Eab.
  - by rewrite (str_compare_lt_trans _ _ _ Eab Ebc).
Qed.

Lemma str_le_antisym a b : str_le a b = true -> str_le b a = true -> a = b.
Proof. apply String.leb_antisym. Qed.

End StringOrder.

(** ** The order of timestamps

    For the years 0000 to 9999 the string order of the printed
    timestamps is the order of the instants. *)

Section TimestampOrder.

Lemma digit_char_compare x y :
  0 <= x <= 9 -> 0 <= y <= 9 ->
  Ascii.compare (digit_char x) (digit_char y) = (x ?= y).
Proof.
  intros Hx Hy. unfold Ascii.compare. rewrite !digit_code by done.
  destruct (Z.compare_spec x y) as [E|L|L].
  - subst. apply N.compare_refl.
  - apply N.compare_lt_iff. lia.
  - apply N.compare_gt_iff. lia.
Qed.

Lemma compare_String c r1 r2 :
  String.compare (String c r1) (String c r2) = String.compare r1 r2.
Proof. simpl. by rewrite ascii_compare_refl. Qed.

(** Comparing two strings that start with [w] digits compares the
    numbers printed, then what follows them. *)
Lemma digits_compare w n m r1 r2 :
  String.compare (digits w n +:+ r1) (digits w m +:+ r2)
  = match n mod 10 ^ Z.of_nat w ?= m mod 10 ^ Z.of_nat w with
    | Eq => String.compare r1 r2
    | c => c
    end.
Proof.
  induction w as [|w IH].
  - simpl. by rewrite !Z.mod_1_r.
  - rewrite !digits_S, !app_String. cbn [String.compare].
    rewrite digit_char_compare by apply mod10_digit. rewrite IH.
    rewrite Nat2Z.inj_succ, Z.pow_succ_r by lia. rewrite (Z.mul_comm 10).
    rewrite !Z.rem_mul_r by lia.
    pose proof (Z.mod_pos_bound n (10 ^ Z.of_nat w) ltac:(lia)).
    pose proof (Z.mod_pos_bound m (10 ^ Z.of_nat w) ltac:(lia)).
    pose proof (mod10_digit (n / 10 ^ Z.of_nat w)).
    pose proof (mod10_digit (m / 10 ^ Z.of_nat w)).
    set (a := (n / 10 ^ Z.of_nat w) mod 10) in *.
    set (b := (m / 10 ^ Z.of_nat w) mod 10) in *.
    set (p := 10 ^ Z.of_nat w) in *.
    set (x := n mod p) in *. set (y := m mod p) in *.
    assert (0 < p) by (subst p; lia).
    clearbody a b x y p.
    destruct (Z.compare_spec a b) as [E|L|L].
    + subst b. destruct (Z.compare_spec x y) as [E'|L'|L'].
      * subst y. by rewrite Z.compare_refl.
      * by replace (x + p * a ?= y + p * a) with Lt
          by (symmetry; apply Z.compare_lt_iff; lia).
      * by replace (x + p * a ?= y + p * a) with Gt
          by (symmetry; apply Z.compare_gt_iff; lia).
    + by replace (x + p * a ?= y + p * b) with Lt
        by (symmetry; apply Z.compare_lt_iff; nia).
    + by replace (x + p * a ?= y + p * b) with Gt
        by (symmetry; apply Z.compare_gt_iff; nia).
Qed.

(** Printed in one layout, fields in lexicographic order give strings
    in string order. *)
Lemma print_fields_lt layout fs1 fs2 :
  fields_fit layout fs1 -> fields_fit layout fs2 -> lex_lt fs1 fs2 ->
  String.compare (print_fields layout fs1) (print_fields layout fs2) = Lt.
Proof.
  revert fs1 fs2.
  induction layout as [|[w c] layout IH]; intros [|f1 fs1] [|f2 fs2];
    simpl; try done.
  intros [B1 F1] [B2 F2] [Hlt|[-> Hlex]];
    rewrite digits_compare, !Z.mod_small by done.
  - by rewrite (proj2 (Z.compare_lt_iff f1 f2) Hlt).
  - rewrite Z.compare_refl, compare_String. by apply IH.
Qed.

Lemma YearFromDay_mono d1 d2 : d1 <= d2 -> YearFromDay d1 <= YearFromDay d2.
Proof.
  intros H. pose proof (YearFromDay_spec d1) as H1.
  pose proof (YearFromDay_spec d2) as H2.
  destruct (Z.le_gt_cases (YearFromDay d1) (YearFromDay d2)) as [|Hgt]; [done|].
  assert (DayFromYear (YearFromDay d2 + 1) <= DayFromYear (YearFromDay d1)); [|lia].
  destruct (Z.eq_dec (YearFromDay d2 + 1) (YearFromDay d1)) as [->|]; [lia|].
  apply Z.lt_le_incl, DayFromYear_lt. lia.
Qed.

(** A later day has a later date. *)
Lemma ymd_lt d1 d2 :
  d1 < d2 ->
  YearFromDay d1 < YearFromDay d2
  \/ (YearFromDay d1 = YearFromDay d2
      /\ (MonthFromDay d1 < MonthFromDay d2
          \/ (MonthFromDay d1 = MonthFromDay d2
              /\ DateFromDay d1 < DateFromDay d2))).
Proof.
  intros H. pose proof (YearFromDay_mono d1 d2 ltac:(lia)) as Hy.
  destruct (Z.eq_dec (YearFromDay d1) (YearFromDay d2)) as [E|]; [|lia].
  right. split; [done|].
  assert (Hl : InLeapYear d1 = InLeapYear d2) by (unfold InLeapYear; by rewrite E).
  assert (Hn : DayWithinYear d1 < DayWithinYear d2)
    by (unfold DayWithinYear; rewrite E; lia).
  pose proof (DayWithinYear_range d1). pose proof (DayWithinYear_range d2).
  pose proof (InLeapYear_cases d2).
  unfold DateFromDay, MonthFromDay. rewrite Hl in *.
  set (n1 := DayWithinYear d1) in *. set (n2 := DayWithinYear d2) in *.
  set (l := InLeapYear d2) in *. clearbody n1 n2 l.
  repeat match goal with
         | |- context [ (?a <? ?b) ] => destruct (Z.ltb_spec a b)
         end; simpl; lia.
Qed.

(** Within a day, a later instant has a later time of day. *)
Lemma hms_lt t1 t2 :
  Day t1 = Day t2 -> t1 < t2 ->
  HourFromTime t1 < HourFromTime t2
  \/ (HourFromTime t1 = HourFromTime t2
      /\ (MinFromTime t1 < MinFromTime t2
          \/ (MinFromTime t1 = MinFromTime t2
              /\ (SecFromTime t1 < SecFromTime t2
                  \/ (SecFromTime t1 = SecFromTime t2
                      /\ msFromTime t1 < msFromTime t2))))).
Proof.
  unfold Day, msPerDay, HourFromTime, MinFromTime, SecFromTime, msFromTime.
  intros Hd Hlt. Z.to_euclidean_division_equations. lia.
Qed.

Lemma iso_fields_lt t1 t2 : t1 < t2 -> lex_lt (iso_fields t1) (iso_fields t2).
Proof.
  intros Hlt. unfold iso_fields. cbn [lex_lt].
  assert (Hd : Day t1 <= Day t2)
    by (unfold Day, msPerDay; Z.to_euclidean_division_equations; lia).
  destruct (Z.eq_dec (Day t1) (Day t2)) as [E|Hne].
  - pose proof (hms_lt t1 t2 E Hlt) as H. rewrite E. tauto.
  - pose proof (ymd_lt (Day t1) (Day t2) ltac:(lia)) as H.
    destruct H as [H|[Ey [H|[Em H]]]]; [tauto| |].
    + right. split; [done|]. left. lia.
    + right. split; [done|]. right. split; [lia|]. by left.
Qed.

Lemma YearFromDay_of_start y : YearFromDay (DayFromYear y) = y.
Proof.
  apply YearFromDay_unique. split; [lia|]. apply DayFromYear_lt. lia.
Qed.

Lemma four_digit_year_range t :
  four_digit_year t -> 0 <= YearFromDay (Day t) <= 9999.
Proof.
  unfold four_digit_year. intros H.
  assert (Hd : DayFromYear 0 <= Day t <= DayFromYear 10000 - 1).
  { change (DayFromYear 0) with (-719528).
    change (DayFromYear 10000) with 2932897.
    unfold Day, msPerDay. Z.to_euclidean_division_equations; lia. }
  split.
  - rewrite <- (YearFromDay_of_start 0). apply YearFromDay_mono. lia.
  - assert (YearFromDay (DayFromYear 10000 - 1) = 9999) as <-.
    { apply YearFromDay_unique. by vm_compute. }
    apply YearFromDay_mono. lia.
Qed.

Lemma append_assoc_str a b c : (a +:+ b) +:+ c = a +:+ (b +:+ c).
Proof.
  induction a as [|x a IH]; [done|]. by rewrite !app_String, IH.
Qed.

(** The timestamp of a year 0000 to 9999 is its fields in the layout. *)
Lemma iso_string_fields t :
  four_digit_year t -> iso_string t = print_fields iso_layout (iso_fields t).
Proof.
  intros H. apply four_digit_year_range in H.
  unfold iso_string, date_string, time_string, year_string.
  destruct (Z.leb_spec 0 (YearFromDay (Day t))); [|lia].
  destruct (Z.leb_spec (YearFromDay (Day t)) 9999); [|lia].
  cbn [andb iso_layout iso_fields print_fields].
  by rewrite !append_assoc_str.
Qed.

Lemma iso_fields_fit t :
  four_digit_year t -> fields_fit iso_layout (iso_fields t).
Proof.
  intros H. apply four_digit_year_range in H.
  pose proof (MonthFromDay_range (Day t)). pose proof (DateFromDay_range (Day t)).
  unfold iso_fields, iso_layout, HourFromTime, MinFromTime, SecFromTime, msFromTime.
  cbn [fields_fit].
  pose proof (Z.mod_pos_bound (t / 3600000) 24 ltac:(lia)).
  pose proof (Z.mod_pos_bound (t / 60000) 60 ltac:(lia)).
  pose proof (Z.mod_pos_bound (t / 1000) 60 ltac:(lia)).
  pose proof (Z.mod_pos_bound t 1000 ltac:(lia)).
  simpl. lia.
Qed.

(** Between the years 0000 and 9999 a later instant prints as a greater
    string. *)
Lemma iso_string_lt t1 t2 :
  four_digit_year t1 -> four_digit_year t2 -> t1 < t2 ->
  String.ltb (iso_string t1) (iso_string t2) = true.
Proof.
  intros H1 H2 Hlt. unfold String.ltb.
  rewrite !iso_string_fields by done.
  by rewrite (print_fields_lt _ _ _ (iso_fields_fit _ H1) (iso_fields_fit _ H2)
                (iso_fields_lt _ _ Hlt)).
Qed.

(** There the [<=] of the strings is the [<=] of the instants, which is
    what the due-review selection compares. *)
Lemma iso_string_le t1 t2 :
  four_digit_year t1 -> four_digit_year t2 ->
  str_le (iso_string t1) (iso_string t2) = true <-> t1 <= t2.
Proof.
  intros H1 H2. unfold str_le, String.leb. split.
  - intros Hle. destruct (Z.le_gt_cases t1 t2) as [|Hgt]; [done|].
    pose proof (iso_string_lt t2 t1 H2 H1 ltac:(lia)) as Hlt.
    unfold String.ltb in Hlt. rewrite String.compare_antisym in Hle.
    by destruct (String.compare (iso_string t2) (iso_string t1)).
  - intros Hle. destruct (Z.eq_dec t1 t2) as [->|Hne].
    + by rewrite str_compare_refl.
    + pose proof (iso_string_lt t1 t2 H1 H2 ltac:(lia)) as Hlt.
      unfold String.ltb in Hlt.
      by destruct (String.compare (iso_string t1) (iso_string t2)).
Qed.

End TimestampOrder.

(** ** Reading a printed timestamp back *)

Section RoundTrip.

Lemma digit_val_char x : 0 <= x <= 9 -> digit_val (digit_char x) = Some x.
Proof.
  intros Hx. unfold digit_val. rewrite digit_code by done.
  destruct (N.leb_spec 48 (48 + Z.to_N x)); [|lia].
  destruct (N.leb_spec (48 + Z.to_N x) 57); [|lia].
  simpl. f_equal. lia.
Qed.

Lemma read_digits_digits w acc n r :
  read_digits w acc (digits w n +:+ r)
  = Some (acc * 10 ^ Z.of_nat w + n mod 10 ^ Z.of_nat w, r).
Proof.
  revert acc. induction w as [|w IH]; intros acc.
  - simpl. rewrite Z.mod_1_r. do 2 f_equal. lia.
  - rewrite digits_S, app_String. cbn [read_digits].
    rewrite digit_val_char by apply mod10_digit. cbn [mbind option_bind].
    rewrite IH. do 2 f_equal.
    rewrite Nat2Z.inj_succ, Z.pow_succ_r by lia. rewrite (Z.mul_comm 10 (10 ^ _)).
    rewrite Z.rem_mul_r by lia. lia.
Qed.

Lemma read_digits_small w n r :
  0 <= n < 10 ^ Z.of_nat w ->
  read_digits w 0 (digits w n +:+ r) = Some (n, r).
Proof. intros H. by rewrite read_digits_digits, Z.mod_small. Qed.

Lemma digit_char_eqb x (c : ascii) :
  0 <= x <= 9 -> (N_of_ascii c < 48 \/ 57 < N_of_ascii c)%N ->
  Ascii.eqb c (digit_char x) = false.
Proof.
  intros Hx Hc. apply Ascii.eqb_neq. intros E.
  by apply (digit_char_neq x c).
Qed.

Lemma read_year_string y r :
  -1000000 < y < 1000000 -> read_year (year_string y +:+ r) = Some (y, r).
Proof.
  intros Hy. unfold year_string.
  destruct (Z.leb_spec 0 y), (Z.leb_spec y 9999); cbn [andb]; try lia.
  - rewrite (digits_S 3), app_String. unfold read_year.
    rewrite (Ascii.eqb_sym _ "+"), (Ascii.eqb_sym _ "-").
    rewrite !digit_char_eqb by (first [apply mod10_digit | left; reflexivity]).
    rewrite <- app_String, <- digits_S.
    apply read_digits_small. simpl. lia.
  - rewrite app_String. unfold read_year. cbn [Ascii.eqb Bool.eqb andb].
    rewrite read_digits_small by (simpl; lia). do 2 f_equal. lia.
  - rewrite app_String. unfold read_year. cbn [Ascii.eqb Bool.eqb andb].
    rewrite read_digits_small by (simpl; lia). cbn [mbind option_bind].
    destruct (Z.eqb_spec (Z.abs y) 0); [lia|]. do 2 f_equal. lia.
Qed.

Lemma app_empty_str r : "" +:+ r = r.
Proof. reflexivity. Qed.

Lemma expect_String c r : expect c (String c r) = Some r.
Proof. unfold expect. by rewrite Ascii.eqb_refl. Qed.

Lemma MakeDay_fields d :
  MakeDay (YearFromDay d) (MonthFromDay d) (DateFromDay d) = d.
Proof.
  unfold MakeDay. fold (InLeapYear d).
  pose proof (DayWithinYear_decompose d) as H. unfold DayWithinYear in H. lia.
Qed.

Lemma DateFromDay_in_month d :
  DateFromDay d <= DaysInMonth (YearFromDay d) (MonthFromDay d).
Proof.
  pose proof (DayWithinYear_range d) as Hr.
  pose proof (InLeapYear_cases d) as Hl.
  unfold DaysInMonth. fold (InLeapYear d).
  unfold DateFromDay, MonthFromDay.
  repeat match goal with
         | |- context [ (?a <? ?b) ] => destruct (Z.ltb_spec a b)
         end; simpl; lia.
Qed.

Lemma time_fields t :
  Day t * msPerDay + HourFromTime t * 3600000 + MinFromTime t * 60000
  + SecFromTime t * 1000 + msFromTime t = t.
Proof.
  unfold Day, msPerDay, HourFromTime, MinFromTime, SecFromTime, msFromTime.
  Z.to_euclidean_division_equations. lia.
Qed.

(** The parser reads every printed timestamp back. *)
Theorem parse_iso_string t : valid_time t -> parse_iso (iso_string t) = Some t.
Proof.
  intros Ht. pose proof (Day_valid t Ht) as Hd.
  pose proof (YearFromDay_bound _ Hd) as Hy.
  pose proof (MonthFromDay_range (Day t)) as Hm.
  pose proof (DateFromDay_range (Day t)) as Hdate.
  pose proof (DateFromDay_in_month (Day t)) as Hdim.
  pose proof (Z.mod_pos_bound (t / 3600000) 24 ltac:(lia)) as Hh.
  pose proof (Z.mod_pos_bound (t / 60000) 60 ltac:(lia)) as Hmi.
  pose proof (Z.mod_pos_bound (t / 1000) 60 ltac:(lia)) as Hs.
  pose proof (Z.mod_pos_bound t 1000 ltac:(lia)) as Hms.
  unfold parse_iso, iso_string, date_string, time_string.
  rewrite !append_assoc_str.
  rewrite read_year_string by lia. cbn [mbind option_bind].
  rewrite !app_String, !app_empty_str, expect_String. cbn [mbind option_bind].
  repeat (rewrite read_digits_small
            by (simpl; unfold HourFromTime, MinFromTime, SecFromTime, msFromTime;
                lia);
          cbn [mbind option_bind];
          rewrite expect_String; cbn [mbind option_bind]).
  replace (MonthFromDay (Day t) + 1 - 1) with (MonthFromDay (Day t)) by lia.
  destruct (Z.leb_spec 1 (MonthFromDay (Day t) + 1)); [|lia].
  destruct (Z.leb_spec (MonthFromDay (Day t) + 1) 12); [|lia].
  destruct (Z.leb_spec 1 (DateFromDay (Day t))); [|lia].
  destruct (Z.leb_spec (DateFromDay (Day t))
              (DaysInMonth (YearFromDay (Day t)) (MonthFromDay (Day t)))); [|lia].
  destruct (Z.leb_spec (HourFromTime t) 23); [|unfold HourFromTime in *; lia].
  destruct (Z.leb_spec (MinFromTime t) 59); [|unfold MinFromTime in *; lia].
  destruct (Z.leb_spec (SecFromTime t) 59); [|unfold SecFromTime in *; lia].
  cbn [andb]. rewrite MakeDay_fields. f_equal. apply time_fields.
Qed.

(** What the client sends, [new Date ().toISOString ()], is a timestamp
    passed as [studiedAt]. *)
Lemma studied_at_iso_string T :
  valid_time T -> studied_at parse_iso T (JStr (iso_string T)).
Proof.
  intros HT. pose proof (parse_iso_string T HT) as Hp.
  constructor; [|done]. intros E. by rewrite E in Hp.
Qed.

End RoundTrip.

(** ** Creating a review schedule *)

Section Schedule.

Variable parse : string -> option Z.

Implicit Types (s q : gmap string JsVal).

Lemma generateReviewSchedule_valid T :
  valid_time T -> valid_time (T + 2592000000) ->
  generateReviewSchedule (Some T) = Val (reviews_at T).
Proof.
  unfold valid_time, maxTime. intros H0 H30.
  unfold generateReviewSchedule, review_offsets, js_map, Date_plus.
  rewrite !TimeClip_valid by (unfold valid_time, maxTime; lia).
  reflexivity.
Qed.

(** A schedule whose first review is not a valid time is not created:
    [toISOString] throws. *)
Lemma generateReviewSchedule_invalid d :
  Date_plus d 86400000 = None -> generateReviewSchedule d = Exn.
Proof.
  intros H. unfold generateReviewSchedule, review_offsets, js_map.
  change (1 * 86400000) with 86400000. by rewrite H.
Qed.

(** The schedule of a request whose study date is the valid time [T]. *)
Lemma review_schedule_post_done userId now q s T :
  valid_time now ->
  Date_new parse (js_or (default JUndefined (q !! "studiedAt")) (JNum now))
  = Some (Some T) ->
  valid_time T -> valid_time (T + 2592000000) ->
  exists r s',
    review_schedule_post parse (AuthOk userId) now (JObj q) s = Done r s'
    /\ status r = 200
    /\ get_opt (body r) "reviews" = JArr (reviews_at T)
    /\ get_opt (kv_get ("review:" +:+ userId +:+ ":" +:+ pretty now) s') "reviews"
       = JArr (reviews_at T)
    /\ get_opt (kv_get ("review:" +:+ userId +:+ ":" +:+ pretty now) s')
               "completedReviews" = JArr [].
Proof.
  intros Hnow HT V0 V30. do 2 eexists. split.
  - run_handler. cbn [get_prop]. rewrite HT.
    rewrite (generateReviewSchedule_valid T V0 V30).
    rewrite (TimeClip_valid _ Hnow). reflexivity.
  - cbn [status body json]. rewrite kv_get_set_eq, !get_opt_jsonify.
    unfold lit_set. by simplify_map_eq.
Qed.

Lemma studied_at_Date_new T v now :
  studied_at parse T v -> valid_time T ->
  Date_new parse (js_or v (JNum now)) = Some (Some T).
Proof.
  intros [str Hne Hp|Hne] HT.
  - unfold js_or. destruct str; [done|]. cbn [truthy Date_new].
    rewrite Hp. simpl. by rewrite TimeClip_valid.
  - unfold js_or. cbn [truthy].
    destruct (Z.eqb_spec T 0); [done|]. cbn [negb Date_new to_number].
    simpl. by rewrite TimeClip_valid.
Qed.

(** The five instants are in ascending order, and so are the five
    strings between the years 0000 and 9999. *)
Lemma review_instants_sorted T :
  StronglySorted Z.lt
    [T + 86400000; T + 259200000; T + 604800000;
     T + 1209600000; T + 2592000000].
Proof. repeat (constructor; [|repeat constructor; lia]). constructor. Qed.

Lemma review_strings_sorted T :
  four_digit_year (T + 86400000) -> four_digit_year (T + 2592000000) ->
  StronglySorted (fun a b => String.ltb a b = true)
    (iso_string <$> [T + 86400000; T + 259200000; T + 604800000;
                     T + 1209600000; T + 2592000000]).
Proof.
  unfold four_digit_year. intros H1 H30. cbn [fmap list_fmap].
  repeat (constructor;
          [|repeat (constructor;
                    [apply iso_string_lt; unfold four_digit_year; lia|]);
            constructor]).
  constructor.
Qed.

(** C1, amended.  For a valid timestamp [T] passed as [studiedAt] whose
    thirtieth day after is a valid time too, the schedule has the five
    reviews [T] + 1, 3, 7, 14 and 30 days of 86400 seconds each
    (86400000, 259200000, 604800000, 1209600000 and 2592000000 ms), in
    strictly ascending order: as instants, and as the strings that are
    stored when the years have four digits. *)
Theorem review_schedule_offsets userId now q s sa T :
  valid_time now ->
  q !! "studiedAt" = Some sa -> studied_at parse T sa ->
  valid_time T -> valid_time (T + 2592000000) ->
  exists r s' reviews,
    review_schedule_post parse (AuthOk userId) now (JObj q) s = Done r s'
    /\ status r = 200
    /\ get_opt (body r) "reviews" = JArr reviews
    /\ get_opt (kv_get ("review:" +:+ userId +:+ ":" +:+ pretty now) s') "reviews"
       = JArr reviews
    /\ List.length reviews = 5%nat
    /\ reviews
       = (fun t => JStr (iso_string t))
           <$> [T + 86400000; T + 259200000; T + 604800000;
                T + 1209600000; T + 2592000000]
    /\ StronglySorted Z.lt
         [T + 86400000; T + 259200000; T + 604800000;
          T + 1209600000; T + 2592000000]
    /\ (four_digit_year (T + 86400000) ->
        four_digit_year (T + 2592000000) ->
        StronglySorted (fun a b => String.ltb a b = true)
          (iso_string <$> [T + 86400000; T + 259200000; T + 604800000;
                           T + 1209600000; T + 2592000000])).
Proof.
  intros Hnow Hq Hsa V0 V30.
  destruct (review_schedule_post_done userId now q s T)
    as (r & s' & Hrun & Hst & Hr & Hs & _); try done.
  { rewrite Hq. simpl. by apply studied_at_Date_new. }
  exists r, s', (reviews_at T). repeat split; try done.
  - apply review_instants_sorted.
  - apply review_strings_sorted.
Qed.


End Schedule.

(** C1 as stated fails at the end of the time range: the last valid
    time is a valid timestamp, its reviews are not valid times, and the
    request ends in the 500 response with nothing stored. *)
Lemma review_schedule_range_end :
  parse_iso "+275760-09-13T00:00:00.000Z" = Some maxTime
  /\ valid_time maxTime
  /\ review_schedule_post parse_iso (AuthOk "u1") 1704067200000
       (JObj {[ "topic" := JStr "X";
                "studiedAt" := JStr "+275760-09-13T00:00:00.000Z" ]}) ∅
     = Done (json (error_body "Failed to create review schedule") 500) ∅
  /\ ~ (exists r s' reviews,
          review_schedule_post parse_iso (AuthOk "u1") 1704067200000
            (JObj {[ "topic" := JStr "X";
                     "studiedAt" := JStr "+275760-09-13T00:00:00.000Z" ]}) ∅
          = Done r s'
          /\ get_opt (body r) "reviews" = JArr reviews
          /\ List.length reviews = 5%nat).
Proof.
  assert (E : review_schedule_post parse_iso (AuthOk "u1") 1704067200000
       (JObj {[ "topic" := JStr "X";
                "studiedAt" := JStr "+275760-09-13T00:00:00.000Z" ]}) ∅
     = Done (json (error_body "Failed to create review schedule") 500) ∅)
    by (vm_compute; reflexivity).
  split; [by vm_compute|]. split; [by vm_compute|]. split; [exact E|].
  intros (r & s' & reviews & Hrun & Hr & _). rewrite E in Hrun.
  injection Hrun as <- _. vm_compute in Hr. discriminate Hr.
Qed.


(** ** Selecting the due reviews *)

Section DueReviews.

Implicit Types (m : gmap string JsVal) (rs : list string) (c : list JsVal).

Lemma same_value_zero_str r v : same_value_zero (JStr r) v = true <-> v = JStr r.
Proof.
  unfold same_value_zero. destruct v; simpl; try (split; done).
  rewrite String.eqb_eq. split; congruence.
Qed.

Lemma due_b_due c now r : due_b c now r = true <-> due c now r.
Proof.
  unfold due_b, due. rewrite andb_true_iff, negb_true_iff.
  apply and_iff_compat_r.
  rewrite <- not_true_iff_false, existsb_exists.
  split; intros H.
  - intros Hin. apply H. exists (JStr r). split.
    + by apply list_elem_of_In.
    + by apply same_value_zero_str.
  - intros (v & Hin & Hv). apply same_value_zero_str in Hv as ->.
    by apply H, list_elem_of_In.
Qed.

Lemma fmap_JStr_inj rs rs' : JStr <$> rs = JStr <$> rs' -> rs = rs'.
Proof.
  revert rs'. induction rs as [|r rs IH]; intros [|r' rs']; simpl; try done.
  intros [= -> E]. by rewrite (IH _ E).
Qed.

Lemma schedule_doc_inj m rs rs' c c' :
  schedule_doc m rs c -> schedule_doc m rs' c' -> rs = rs' /\ c = c'.
Proof.
  intros [Hr Hc] [Hr' Hc']. rewrite Hr in Hr'. rewrite Hc in Hc'.
  injection Hr' as Hr'. injection Hc' as Hc'. split; [|done].
  by apply fmap_JStr_inj.
Qed.

(** The callback on a review timestamp of a stored schedule. *)
Lemma due_callback_str m c now r :
  m !! "completedReviews" = Some (JArr c) ->
  due_callback (JObj m) now (JStr r) = Val (due_b c now r).
Proof.
  intros Hc. unfold due_callback.
  rewrite (get_prop_lookup _ _ _ Hc). cbn [or_throw ebind js_includes].
  unfold due_b. by destruct (existsb _ c).
Qed.

(** [find] stops at the first due review. *)
Lemma next_due_find m rs c now :
  schedule_doc m rs c ->
  next_due now (JObj m)
  = Val (match List.find (due_b c now) rs with
         | Some r => JStr r
         | None => JUndefined
         end).
Proof.
  intros [Hr Hc]. unfold next_due.
  rewrite (get_prop_lookup _ _ _ Hr). cbn [or_throw ebind]. clear Hr.
  induction rs as [|r rs IH]; [done|].
  cbn [fmap list_fmap js_find List.find].
  rewrite (due_callback_str m c now r Hc). cbn [ebind].
  destruct (due_b c now r); [done|]. apply IH.
Qed.

(** In an ascending list, the first due review is the earliest. *)
Lemma find_earliest_due rs c now r :
  StronglySorted (fun a b => str_le a b = true) rs ->
  List.find (due_b c now) rs = Some r ->
  earliest_due rs c now r.
Proof.
  induction 1 as [|a rs Hs IH Ha]; [done|]. cbn [List.find].
  destruct (due_b c now a) eqn:Ea.
  - intros [= <-]. split; [by left|]. split; [by apply due_b_due|].
    intros r' Hin _. apply elem_of_cons in Hin as [->|Hin].
    + apply str_le_refl.
    + eapply Forall_forall in Ha; [exact Ha|done].
  - intros Hf. destruct (IH Hf) as (Hin & Hdue & Hmin).
    split; [by right|]. split; [done|].
    intros r' Hin' Hdue'. apply elem_of_cons in Hin' as [->|Hin'].
    + apply due_b_due in Hdue'. congruence.
    + by apply Hmin.
Qed.

Lemma find_none_not_due rs c now r :
  List.find (due_b c now) rs = None -> r ∈ rs -> ~ due c now r.
Proof.
  intros Hf Hin Hd. apply due_b_due in Hd.
  apply list_elem_of_In in Hin.
  by rewrite (List.find_none _ _ Hf _ Hin) in Hd.
Qed.

(** The earliest due review is unique. *)
Lemma earliest_due_unique rs c now r1 r2 :
  earliest_due rs c now r1 -> earliest_due rs c now r2 -> r1 = r2.
Proof.
  intros (I1 & D1 & M1) (I2 & D2 & M2).
  apply str_le_antisym; [by apply M1|by apply M2].
Qed.

(** One step of the selection on a stored schedule: the schedule with
    its [nextDue], or [null]. *)
Lemma annotate_due_spec m rs c now :
  schedule_doc m rs c -> Forall (fun r => r <> "") rs ->
  annotate_due now (JObj m)
  = Val (match List.find (due_b c now) rs with
         | Some r => JObj (<["nextDue" := JStr r]> m)
         | None => JNull
         end).
Proof.
  intros Hd Hne. unfold annotate_due.
  rewrite (next_due_find m rs c now Hd). cbn [ebind].
  destruct (List.find (due_b c now) rs) as [r|] eqn:Ef; [|done].
  apply List.find_some in Ef as [Hin _].
  apply list_elem_of_In in Hin.
  eapply Forall_forall in Hne; [|exact Hin].
  destruct r; [done|]. cbn [truthy].
  unfold lit_set. by rewrite spread_empty_r.
Qed.

Lemma js_map_annotate all now :
  Forall ascending_schedule all ->
  exists l, js_map (annotate_due now) all = Val l /\ Forall2 (selected now) all l.
Proof.
  induction 1 as [|v all (m & rs & c & -> & Hd & Hne & _) _ (l & IH & Hl)].
  - by exists [].
  - eexists. cbn [js_map]. rewrite (annotate_due_spec m rs c now Hd Hne), IH.
    cbn [ebind]. split; [reflexivity|].
    constructor; [|done]. by exists m, rs, c.
Qed.

Lemma schedule_doc_nextDue m v rs c :
  schedule_doc (<["nextDue" := v]> m) rs c <-> schedule_doc m rs c.
Proof. unfold schedule_doc. by rewrite !lookup_insert_ne. Qed.


End DueReviews.

(** ** The onboarding bonus *)

Section Onboarding.

Implicit Types (s : gmap string JsVal).

(** Every routine creation credits the bonus: the handler sets
    [onboardingComplete] and does not read it. *)
Lemma routine_post_credits userId now routineData s x :
  valid_time now ->
  stored_xp userId s = JNum x ->
  exists s',
    routine_post (AuthOk userId) now routineData s = Done (json success 200) s'
    /\ stored_xp userId s' = JNum (x + 50)
    /\ get_opt (kv_get (profile_key userId) s') "onboardingComplete" = JBool true.
Proof.
  intros Hnow Hx. eexists. split; [|split].
  - run_handler. rewrite (TimeClip_valid _ Hnow).
    rewrite kv_get_set_ne by key_neq.
    unfold stored_xp in Hx. by rewrite (credit_xp_num _ _ _ Hx).
  - apply stored_xp_set_profile_num. unfold lit_set. by simplify_map_eq.
  - rewrite kv_get_set_eq, get_opt_jsonify. unfold lit_set. by simplify_map_eq.
Qed.

(** C7 on the code.  A new account submits the routine twice: the
    first submission credits 50 XP and marks the onboarding complete,
    the second one credits 50 XP again. *)
Theorem routine_bonus_twice :
  stored_xp "u1" new_account = JNum 0
  /\ routine_post (AuthOk "u1") 1704067200000 (JObj ∅) new_account
     = Done (json success 200)
            (store_after (routine_post (AuthOk "u1") 1704067200000 (JObj ∅))
                         new_account)
  /\ stored_xp "u1"
       (store_after (routine_post (AuthOk "u1") 1704067200000 (JObj ∅))
                    new_account) = JNum 50
  /\ get_opt (kv_get (profile_key "u1")
               (store_after (routine_post (AuthOk "u1") 1704067200000 (JObj ∅))
                            new_account))
             "onboardingComplete" = JBool true
  /\ stored_xp "u1"
       (store_after
          (then_run (routine_post (AuthOk "u1") 1704067200000 (JObj ∅))
                    (routine_post (AuthOk "u1") 1704067260000 (JObj ∅)))
          new_account) = JNum 100.
Proof. repeat split; vm_compute; reflexivity. Qed.

End Onboarding.

(** ** Reading documents back *)

(** Unfolds any handler into the effects it has on the store. *)
Ltac run_request :=
cbv [signup_post profile_get routine_get study_records_get goal_post task_post
     list_get goals_get tasks_get documents_get task_delete del
     routine_post study_record_post profile_post record_put goal_put task_put
     review_schedule_post reviews_due_get review_complete_post
     authenticated try_catch bind ret get set getByPrefix eval now_iso
     ebind or_throw or_beyond toISOString].

Section Documents.

Implicit Types (s p u q : gmap string JsVal).

Lemma fields_at_spread k s p :
  fields_at k s p -> lit_spread (kv_get k s) ∅ = p.
Proof.
  intros [H|p' H _]; unfold kv_get; rewrite H, spread_empty_r; done.
Qed.

Lemma fields_at_json k s p : fields_at k s p -> is_json (JObj p).
Proof.
  intros [_|p' _ H]; [|done]. split; [done|].
  rewrite jsonify_obj. by rewrite omap_empty.
Qed.

Lemma json_field_body f v st :
  is_json v -> json {[ f := v ]} st = {| status := st; body := JObj {[ f := v ]} |}.
Proof.
  intros [Hu Hv]. unfold json. f_equal.
  apply is_json_obj. intros f' v' Hf.
  apply lookup_singleton_Some in Hf as [_ <-]. by split.
Qed.

(** [POST /profile] followed by [GET /profile]: the profile that is
    read back is the one the update answered with, the update over the
    stored fields.  A user who has no profile gets one that consists of
    the update alone: the update does not answer 404. *)
Theorem profile_post_then_get userId p u s :
  fields_at (profile_key userId) s p -> is_json (JObj u) ->
  exists r s',
    profile_post (AuthOk userId) (JObj u) s = Done r s'
    /\ status r = 200
    /\ get_opt (body r) "profile" = JObj (u ∪ p)
    /\ profile_get (AuthOk userId) s'
       = Done {| status := 200; body := JObj {[ "profile" := JObj (u ∪ p) ]} |} s'.
Proof.
  intros Hp Hu.
  assert (Hj : is_json (JObj (u ∪ p)))
    by (apply is_json_union; [done|by eapply fields_at_json]).
  do 2 eexists. split; [|split; [|split]].
  - run_request. rewrite (fields_at_spread _ _ _ Hp). reflexivity.
  - reflexivity.
  - cbn [body json]. rewrite get_opt_jsonify. unfold lit_set.
    rewrite lookup_insert_eq. unfold lit_spread. cbn [spread]. apply Hj.
  - run_request. rewrite kv_get_set_eq. unfold lit_spread. cbn [spread].
    destruct Hj as [Hne Hj]. rewrite Hj. cbn [js_not truthy negb].
    by rewrite json_field_body.
Qed.

(** A user for whom nothing is stored: [GET /profile] answers 404,
    [GET /routine] answers 200 with an object that has no [routine]. *)
Theorem documents_missing userId s :
  s !! profile_key userId = None ->
  s !! ("user_routine:" +:+ userId) = None ->
  profile_get (AuthOk userId) s
  = Done {| status := 404; body := JObj {[ "error" := JStr "Profile not found" ]} |} s
  /\ routine_get (AuthOk userId) s = Done {| status := 200; body := JObj ∅ |} s.
Proof.
  intros Hp Hr. split; run_request; unfold kv_get.
  - rewrite Hp. cbn [default js_not truthy negb]. unfold error_body.
    by rewrite json_field_body.
  - rewrite Hr. cbn [default]. unfold json. rewrite jsonify_obj.
    by rewrite omap_singleton_None.
Qed.

(** [POST /routine] followed by [GET /routine]: the routine that is
    read back is the submitted one with the [createdAt] and [updatedAt]
    of the server's clock, which replace those of the request. *)
Theorem routine_post_then_get userId now q s :
  valid_time now -> is_json (JObj q) -> numberlike (stored_xp userId s) ->
  exists s',
    routine_post (AuthOk userId) now (JObj q) s = Done (json success 200) s'
    /\ routine_get (AuthOk userId) s'
       = Done {| status := 200;
                 body := JObj {[ "routine" :=
                   JObj (<["updatedAt" := JStr (iso_string now)]>
                        (<["createdAt" := JStr (iso_string now)]> q)) ]} |} s'.
Proof.
  intros Hnow Hq [x Hx].
  assert (Hj : is_json (JObj (<["updatedAt" := JStr (iso_string now)]>
                             (<["createdAt" := JStr (iso_string now)]> q)))).
  { repeat apply is_json_insert; done. }
  eexists. split.
  - run_request. rewrite (TimeClip_valid _ Hnow).
    rewrite kv_get_set_ne by key_neq.
    unfold credit_xp, js_add. unfold stored_xp in Hx. rewrite Hx.
    cbn [to_number]. reflexivity.
  - run_request. rewrite kv_get_set_ne by (apply not_eq_sym; key_neq).
    rewrite kv_get_set_eq. unfold lit_set, lit_spread. cbn [spread].
    rewrite map_union_empty. destruct Hj as [Hne Hj]. rewrite Hj.
    by rewrite json_field_body.
Qed.

(** No request that reads changes the store, and none ends in an
    exception; the two that compute on the documents they read, the
    sort of the study records and the selection of the due reviews,
    are the ones that can leave the fragment. *)
Theorem answer_reads_only parse a (q : Query) s :
  match answer parse a q s with
  | Done _ s' => s' = s
  | Thrown _ => False
  | Unmodelled => q = StudyRecordsGet \/ exists now, q = ReviewsDueGet now
  end.
Proof.
  destruct a as [userId|e], q; cbn [answer]; run_request; try done;
    repeat next_case; try done; eauto.
Qed.

End Documents.

(** ** Instances *)

(** The merge on a profile with 530 XP and an update that resets [xp]
    and [onboardingComplete]: both are overwritten. *)
Lemma profile_post_merges_witness :
  profile_post (AuthOk "u1")
    (JObj {[ "xp" := JNum 0; "onboardingComplete" := JBool false ]})
    studied_account
  = Done (json (lit_set "profile"
                  (JObj ({[ "xp" := JNum 0; "onboardingComplete" := JBool false ]}
                         ∪ studied_profile)) success) 200)
         (<[profile_key "u1" :=
              JObj ({[ "xp" := JNum 0; "onboardingComplete" := JBool false ]}
                    ∪ studied_profile)]> studied_account)
  /\ ({[ "xp" := JNum 0; "onboardingComplete" := JBool false ]} ∪ studied_profile)
       !! "xp" = Some (JNum 0)
  /\ ({[ "xp" := JNum 0; "onboardingComplete" := JBool false ]} ∪ studied_profile)
       !! "onboardingComplete" = Some (JBool false).
Proof.
  destruct (profile_post_merges "u1" studied_profile
              {[ "xp" := JNum 0; "onboardingComplete" := JBool false ]}
              studied_account) as (H1 & H2 & _).
  - vm_compute; reflexivity.
  - split; [discriminate|vm_compute; reflexivity].
  - split; [discriminate|vm_compute; reflexivity].
  - split; [exact H1|]. split; apply H2; vm_compute; reflexivity.
Defined.

(** A schedule studied at 2024-01-01T00:00:00.000Z: the reviews are on
    the 2nd, 4th, 8th, 15th and 31st of January. *)
Lemma review_schedule_offsets_witness :
  exists r s',
    review_schedule_post parse_iso (AuthOk "u1") 1704067260000
      (JObj {[ "topic" := JStr "X";
               "studiedAt" := JStr "2024-01-01T00:00:00.000Z" ]}) ∅
    = Done r s'
    /\ get_opt (body r) "reviews"
       = JArr [ JStr "2024-01-02T00:00:00.000Z"; JStr "2024-01-04T00:00:00.000Z";
                JStr "2024-01-08T00:00:00.000Z"; JStr "2024-01-15T00:00:00.000Z";
                JStr "2024-01-31T00:00:00.000Z" ].
Proof.
  destruct (review_schedule_offsets parse_iso "u1" 1704067260000
              {[ "topic" := JStr "X";
                 "studiedAt" := JStr "2024-01-01T00:00:00.000Z" ]} ∅
              (JStr "2024-01-01T00:00:00.000Z") 1704067200000)
    as (r & s' & reviews & Hrun & _ & Hr & _ & _ & Heq & _).
  - unfold valid_time. by vm_compute.
  - vm_compute; reflexivity.
  - constructor; [discriminate|vm_compute; reflexivity].
  - unfold valid_time. by vm_compute.
  - unfold valid_time. by vm_compute.
  - exists r, s'. split; [exact Hrun|]. rewrite Hr, Heq. vm_compute; reflexivity.
Defined.







